(** * A leveled logger: shallow embedding of [src/lib/logger/logger.go]

    The package wraps an [io.Writer] behind a channel and a background
    goroutine; callers format a line on their own goroutine and hand it to
    the channel.  This development embeds the formatting code and the
    hand-off as Rocq functions and proves the properties the specification
    states about them.

    Conventions of the embedding:
    - Go's [int] and [Priority] are [Z]; [uint(i)] is [i mod 2^64], and an
      [int] decrement that can leave the 64-bit range wraps ([int_wrap]).
    - Go strings are byte strings: [string] over [ascii].
    - A runtime panic and [os.Exit] are outcomes of a computation; the
      strings handed to [l.logch] and the evaluations of [fmt.Sprintf] on a
      caller's message are recorded, in order, in an event trace.
    - The method [Error] is declared in the source with the keyword
      misspelt ([eunc], line 403); it is embedded as the method it is
      written to be. *)

From Stdlib Require Import ZArith List String Ascii Bool Lia.
From Stdlib Require Import DecimalString DecimalFacts DecimalPos DecimalN.
Import ListNotations.

Local Open Scope Z_scope.
Local Open Scope string_scope.

(** ** What the package imports

    [fmt.Sprintf] on a caller's format and arguments, [strings.ToUpper],
    [os.OpenFile] and [syslog.New] belong to the Go library, not to this
    package: they are the operations of a class. *)

Class GoLib := {
  Arg : Type;                                   (* interface{} *)
  Writer : Type;                                (* io.Writer *)
  Sprintf : string -> list Arg -> string;       (* fmt.Sprintf(format, v...) *)
  ToUpper : string -> string;                   (* strings.ToUpper *)
  OpenFile : string -> Z -> Z -> Writer + string; (* os.OpenFile(name, flag, perm) *)
  syslog_New : Z -> string -> Writer + string   (* syslog.New(priority, tag) *)
}.

(** ** Constants *)

Definition Ldate : Z := Z.shiftl 1 0.
Definition Ltime : Z := Z.shiftl 1 1.
Definition Lmicroseconds : Z := Z.shiftl 1 2.
Definition Llongfile : Z := Z.shiftl 1 3.
Definition Lshortfile : Z := Z.shiftl 1 4.
Definition Lsyslog : Z := Z.shiftl 1 5.
Definition LstdFlags : Z := Z.lor Ldate Ltime.

Definition Priority := Z.

Definition LOG_NONE : Priority := 0.
Definition LOG_DEBUG : Priority := 1.
Definition LOG_INFO : Priority := 2.
Definition LOG_WARNING : Priority := 3.
Definition LOG_ERR : Priority := 4.
Definition LOG_CRIT : Priority := 5.
Definition LOG_EMERG : Priority := 6.

(** The flags and mode [NewFilelog] opens its file with, and the priority
    [NewSyslog] connects with (values of package [os] and [log/syslog] on
    Linux). *)
Definition O_WRONLY : Z := 1.
Definition O_CREATE : Z := 64.
Definition O_SYNC : Z := 1052672.
Definition syslog_LOG_ERR : Z := 3.

(** ** Data *)

Section Model.
Context {go : GoLib}.

Record Logger := mkLogger {
  prio : Priority;
  prefix : string;
  flag : Z;
  out : Writer
}.

(** [time.Time], broken down the way [Date], [Clock] and [Nanosecond]
    report it. *)
Record Time := mkTime {
  year : Z; month : Z; day : Z;
  hour : Z; minute : Z; second : Z;
  nanosecond : Z
}.

(** What the runtime knows of a function: [f.Name()] and [f.FileLine(pc)]. *)
Record Func := mkFunc {
  fn_name : string;
  fn_file : string;
  fn_line : Z
}.

(** One frame of the goroutine's stack: the file and line [runtime.Caller]
    reports for it, and what [runtime.FuncForPC] finds for its pc ([None]
    is Go's nil). *)
Record Frame := mkFrame {
  fr_file : string;
  fr_line : Z;
  fr_func : option Func
}.

(** A stack lists frames innermost first. *)
Definition Stack := list Frame.

Inductive Event :=
| EvSprintf (format : string) (v : list Arg)
| EvSend (line : string).

Record World := mkWorld {
  now : Time;
  trace : list Event
}.

(** ** Computations *)

Inductive Outcome (A : Type) :=
| Returned (a : A)
| Exited (code : Z)
| Panicked (v : string).
Arguments Returned {A} a.
Arguments Exited {A} code.
Arguments Panicked {A} v.

Definition M (A : Type) := World -> Outcome A * World.

Definition ret {A} (a : A) : M A := fun w => (Returned a, w).

Definition bind {A B} (c : M A) (k : A -> M B) : M B :=
  fun w =>
    match c w with
    | (Returned a, w') => k a w'
    | (Exited code, w') => (Exited code, w')
    | (Panicked v, w') => (Panicked v, w')
    end.

Definition emit (e : Event) : M unit :=
  fun w => (Returned tt, mkWorld (now w) (trace w ++ [e])).

(** [time.Now()] *)
Definition time_Now : M Time := fun w => (Returned (now w), w).

(** [l.logch <- s] *)
Definition send (s : string) : M unit := emit (EvSend s).

(** [os.Exit(code)] *)
Definition os_Exit {A} (code : Z) : M A := fun w => (Exited code, w).

(** [panic(v)] *)
Definition panic {A} (v : string) : M A := fun w => (Panicked v, w).

(** [fmt.Sprintf(format, v...)] on a caller's message *)
Definition sprintf (format : string) (v : list Arg) : M string :=
  fun w => (Returned (Sprintf format v),
            mkWorld (now w) (trace w ++ [EvSprintf format v])).

(** A partial result of pure code: [None] is the runtime's index panic. *)
Definition lift {A} (o : option A) : M A :=
  match o with
  | Some a => ret a
  | None => panic "runtime error: index out of range"
  end.

End Model.

Arguments Returned {A} a.
Arguments Exited {A} code.
Arguments Panicked {A} v.

Declare Scope go_scope.
Notation "x <- c ;; k" := (bind c (fun x => k))
  (at level 61, c at next level, right associativity) : go_scope.
Notation "c ;; k" := (bind c (fun _ => k))
  (at level 61, right associativity) : go_scope.
Notation "'do' x <- c ; k" :=
  (match c with Some x => k | None => None end)
  (at level 61, x name, c at next level, right associativity) : go_scope.
Local Open Scope go_scope.

(** ** Formatting *)

(** [fmt]'s verb [%d] on an [int]. *)
Definition fmt_d (n : Z) : string := NilZero.string_of_int (Z.to_int n).

(** [uint(i)] on a 64-bit platform. *)
Definition uint (i : Z) : Z := i mod 2 ^ 64.

(** [byte(u%10) + '0'] *)
Definition digit (u : Z) : ascii := ascii_of_nat (Z.to_nat (u mod 10) + 48).

(** Arithmetic on [int] wraps around at 64 bits. *)
Definition int_wrap (z : Z) : Z := (z + 2 ^ 63) mod 2 ^ 64 - 2 ^ 63.

(** The loop of [itoa].  [bp] is the index into the 32-byte array [b] and
    [buf] holds [b[bp:]]; decrementing [bp] below zero makes the store
    [b[bp]] panic.  [wid--] is a decrement of an [int]: at the least [int]
    it wraps to the greatest. *)
Fixpoint itoa_loop (bp : nat) (u wid : Z) (buf : list ascii) {struct bp}
  : option (list ascii) :=
  if ((0 <? u) || (0 <? wid))%Z then
    match bp with
    | O => None
    | S bp' => itoa_loop bp' (u / 10) (int_wrap (wid - 1)) (digit u :: buf)
    end
  else Some buf.

Definition itoa (i wid : Z) : option string :=
  let u := uint i in
  if ((u =? 0) && (wid <=? 1))%Z then Some "0"
  else
    do buf <- itoa_loop 32 u wid [];
    Some (string_of_list_ascii buf).

Section Format.
Context {go : GoLib}.

Definition formatHeader (l : Logger) (t : Time) : option string :=
  let s := "" in
  if negb (Z.land (flag l) (Z.lor (Z.lor Ldate Ltime) Lmicroseconds) =? 0)%Z then
    do s <-
      (if negb (Z.land (flag l) Ldate =? 0)%Z then
         do y <- itoa (year t) 4;
         do m <- itoa (month t) 2;
         do d <- itoa (day t) 2;
         Some (s ++ y ++ "/" ++ m ++ "/" ++ d)
       else Some s);
    do s <-
      (if negb (Z.land (flag l) (Z.lor Ltime Lmicroseconds) =? 0)%Z then
         do hh <- itoa (hour t) 2;
         do mm <- itoa (minute t) 2;
         do ss <- itoa (second t) 2;
         let s := s ++ " " ++ hh ++ ":" ++ mm ++ ":" ++ ss in
         if negb (Z.land (flag l) Lmicroseconds =? 0)%Z then
           do us <- itoa (Z.quot (nanosecond t) 1000) 6;
           Some (s ++ "." ++ us)
         else Some s
       else Some s);
    Some (s ++ " ")
  else Some s.

End Format.

(** ** The runtime's view of the stack *)

Definition LF : ascii := ascii_of_nat 10.
Definition nl : string := String LF "".

(** Path under which this file was compiled; it names the package's own
    frames, which no caller of the runtime ever reaches. *)
Definition logger_go : string := "lib/logger/logger.go".

Section Runtime.
Context {go : GoLib}.

(** The frame of a method of this package, stopped at [line]. *)
Definition self_frame (name : string) (line : Z) : Frame :=
  mkFrame logger_go line (Some (mkFunc name logger_go line)).

(** [runtime.Caller(skip)] called by the function whose frame heads [stk]:
    skip 0 is that function. *)
Definition Caller (skip : Z) (stk : Stack) : option (string * Z) :=
  if (skip <? 0)%Z then None
  else match nth_error stk (Z.to_nat skip) with
       | Some f => Some (fr_file f, fr_line f)
       | None => None
       end.

(** [runtime.Callers(skip, pc)] with [len(pc) = cap], called by the function
    whose frame heads [stk]: skip 0 is [Callers] itself, skip 1 its caller.
    The result is the filled part of [pc]. *)
Definition Callers (skip : Z) (cap : nat) (stk : Stack) : list Frame :=
  firstn cap (skipn (Z.to_nat (skip - 1)) stk).

(** The scan in [Output] that keeps the last element of a path. *)
Fixpoint short_loop (file : string) (i : nat) : string :=
  match i with
  | O => file
  | S i' =>
      match get i file with
      | Some c =>
          if Ascii.eqb c "/"
          then substring (i + 1) (length file - (i + 1)) file
          else short_loop file i'
      | None => short_loop file i'
      end
  end.

Definition shortfile (file : string) : string :=
  short_loop file (length file - 1).

(** ** Output *)

Definition Output (l : Logger) (calldepth : Z) (prio : Priority) (s : string)
    (stk : Stack) : M (option string) :=
  if (Z.of_nat (length s) =? 0)%Z then ret None
  else
    let here := self_frame "Output" 286 :: stk in
    buf <- (if (Z.land (flag l) Lsyslog =? 0)%Z then
              now <- time_Now ;;
              hdr <- lift (formatHeader l now) ;;
              ret ("<" ++ fmt_d prio ++ ">:" ++ hdr)
            else ret "") ;;
    let buf :=
      if (calldepth >? 0)%Z then
        let finfo :=
          if negb (Z.land (flag l) (Z.lor Lshortfile Llongfile) =? 0)%Z then
            let '(file, line) :=
              match Caller calldepth here with
              | Some fl => fl
              | None => ("???", 0%Z)
              end in
            let file :=
              if negb (Z.land (flag l) Lshortfile =? 0)%Z
              then shortfile file else file in
            "(" ++ file ++ ":" ++ fmt_d line ++ ") "
          else "" in
        if (Z.of_nat (length finfo) >? 0)%Z then buf ++ finfo else buf
      else buf in
    let buf := buf ++ s in
    c <- lift (get (length s - 1) s) ;;
    let buf := if negb (Ascii.eqb c LF) then buf ++ nl else buf in
    send buf ;;
    ret None.

(** ** Backtrace *)

(** One entry of the backtrace: ["%s:%d [%s]"] or the placeholder. *)
Definition frame_line (p : Frame) : string :=
  match fr_func p with
  | Some f => fn_file f ++ ":" ++ fmt_d (fn_line f) ++ " [" ++ fn_name f ++ "]"
  | None => "*unknown*"
  end.

(** A slot of [pc] that [runtime.Callers] did not fill holds pc 0. *)
Definition no_frame : Frame := mkFrame "" 0 None.

(** [for i := 0; i < n; i++ { ...; v = append(v, s) }] with [todo = n - i]
    iterations left. *)
Fixpoint bt_loop (pc : list Frame) (i todo : nat) (v : list string)
  : list string :=
  match todo with
  | O => v
  | S k => bt_loop pc (S i) k (v ++ [frame_line (nth i pc no_frame)])%list
  end.

(** The slice [v] that [Backtrace] joins. *)
Definition bt_entries (depth : Z) (stk : Stack) : list string :=
  let here := self_frame "Backtrace" 329 :: stk in
  let pc := Callers 3 64 here in
  let n := Z.of_nat (List.length pc) in
  let '(depth, n) :=
    if ((depth =? 0) || (depth >? n))%Z then (n, n)
    else if (n >? depth)%Z then (depth, depth)
    else (depth, n) in
  let v := bt_loop pc 0 (Z.to_nat n) [] in
  (v ++ [nl])%list.

Definition Backtrace (l : Logger) (depth : Z) (stk : Stack) : M unit :=
  let v := bt_entries depth stk in
  let str := "Backtrace:" ++ nl ++ "    " ++ concat (nl ++ "    ") v in
  send str.

(** ** Leveled methods *)

Definition Loggable (l : Logger) (p : Priority) : bool :=
  ((prio l >=? LOG_NONE) && (p >=? prio l))%Z.

Definition Printf (l : Logger) (format : string) (v : list Arg)
    (stk : Stack) : M unit :=
  s <- sprintf format v ;;
  Output l 0 LOG_INFO s (self_frame "Printf" 367 :: stk) ;;
  ret tt.

Definition Fatal (l : Logger) (format : string) (v : list Arg)
    (stk : Stack) : M unit :=
  s <- sprintf format v ;;
  Output l 2 LOG_EMERG s (self_frame "Fatal" 377 :: stk) ;;
  Backtrace l 0 (self_frame "Fatal" 378 :: stk) ;;
  os_Exit 1.

Definition Panic (l : Logger) (format : string) (v : list Arg)
    (stk : Stack) : M unit :=
  s <- sprintf format v ;;
  Output l 2 LOG_EMERG s (self_frame "Panic" 386 :: stk) ;;
  Backtrace l 5 (self_frame "Panic" 387 :: stk) ;;
  panic s.

Definition Crit (l : Logger) (format : string) (v : list Arg)
    (stk : Stack) : M unit :=
  if Loggable l LOG_CRIT then
    s <- sprintf format v ;;
    Output l 2 LOG_CRIT s (self_frame "Crit" 397 :: stk) ;;
    ret tt
  else ret tt.

Definition Error (l : Logger) (format : string) (v : list Arg)
    (stk : Stack) : M unit :=
  if Loggable l LOG_ERR then
    s <- sprintf format v ;;
    Output l 2 LOG_ERR s (self_frame "Error" 406 :: stk) ;;
    ret tt
  else ret tt.

Definition Warn (l : Logger) (format : string) (v : list Arg)
    (stk : Stack) : M unit :=
  if Loggable l LOG_WARNING then
    s <- sprintf format v ;;
    Output l 0 LOG_WARNING s (self_frame "Warn" 414 :: stk) ;;
    ret tt
  else ret tt.

Definition Info (l : Logger) (format : string) (v : list Arg)
    (stk : Stack) : M unit :=
  if Loggable l LOG_INFO then
    s <- sprintf format v ;;
    Output l 0 LOG_INFO s (self_frame "Info" 423 :: stk) ;;
    ret tt
  else ret tt.

Definition Debug (l : Logger) (format : string) (v : list Arg)
    (stk : Stack) : M unit :=
  if Loggable l LOG_DEBUG then
    s <- sprintf format v ;;
    Output l 2 LOG_DEBUG s (self_frame "Debug" 432 :: stk) ;;
    ret tt
  else ret tt.

(** ** Properties of a logger *)

Definition Prio (l : Logger) : Priority := prio l.
Definition SetPrio (l : Logger) (p : Priority) : Logger :=
  mkLogger p (prefix l) (flag l) (out l).
Definition Flags (l : Logger) : Z := flag l.
Definition SetFlags (l : Logger) (f : Z) : Logger :=
  mkLogger (prio l) (prefix l) f (out l).
Definition Prefix (l : Logger) : string := prefix l.
Definition SetPrefix (l : Logger) (p : string) : Logger :=
  mkLogger (prio l) p (flag l) (out l).

(** ** Constructors

    A constructor returns the logger or the text of the error.  The channel
    [newLogger] makes is the one whose hand-offs a [World] records. *)

Definition newLogger (ll : Logger) : Logger + string := inl ll.

Definition New (out : Writer) (prio : Priority) (prefix : string) (flag : Z)
  : Logger + string :=
  newLogger (mkLogger prio prefix flag out).

Definition NewFilelog (file : string) (prio : Priority) (prefix : string)
    (flag : Z) : Logger + string :=
  match OpenFile file (Z.lor (Z.lor O_WRONLY O_CREATE) O_SYNC) 384 with
  | inr err => inr ("Can't open log file '" ++ file ++ "': " ++ err)
  | inl logfd => newLogger (mkLogger prio prefix flag logfd)
  end.

Definition NewSyslog (prio : Priority) (prefix : string) (flag : Z)
  : Logger + string :=
  match syslog_New syslog_LOG_ERR "" with
  | inr err => inr ("Can't open SYSLOG connection: " ++ err)
  | inl wr => newLogger (mkLogger prio prefix (Z.lor flag Lsyslog) wr)
  end.

Definition NewLogger (name : string) (prio : Priority) (prefix : string)
    (flag : Z) : Logger + string :=
  if String.eqb (ToUpper name) "SYSLOG" then NewSyslog prio prefix flag
  else NewFilelog name prio "" flag.

End Runtime.

(** ** A concrete library for examples

    Arguments are strings, [Sprintf] appends them to the format, and
    [ToUpper] folds the ASCII letters. *)

Definition upper_ascii (c : ascii) : ascii :=
  let n := nat_of_ascii c in
  if ((97 <=? n) && (n <=? 122))%nat then ascii_of_nat (n - 32) else c.

Fixpoint upper_string (s : string) : string :=
  match s with
  | EmptyString => EmptyString
  | String c s' => String (upper_ascii c) (upper_string s')
  end.

Definition demo_lib : GoLib := {|
  Arg := string;
  Writer := string;
  Sprintf := fun format v => format ++ concat "" v;
  ToUpper := upper_string;
  OpenFile := fun name _ _ =>
    if String.eqb name "" then inr "no such file or directory" else inl name;
  syslog_New := fun _ _ => inl "syslog"
|}.

Definition demo_time : Time := mkTime 2009 1 23 1 23 23 123123000.
Definition demo_logger (p : Priority) (f : Z) : Logger (go := demo_lib) :=
  mkLogger (go := demo_lib) p "pfx" f "sink".
Definition demo_stack : Stack :=
  [mkFrame "/a/b/c.go" 12 None; mkFrame "/a/b/d.go" 13 (Some (mkFunc "main.main" "/a/b/d.go" 14))].
Definition demo_deep_stack : Stack :=
  [mkFrame "/a/b/c.go" 12 (Some (mkFunc "main.work" "/a/b/c.go" 12));
   mkFrame "/a/b/d.go" 13 (Some (mkFunc "main.run" "/a/b/d.go" 13));
   mkFrame "/a/b/e.go" 14 None;
   mkFrame "/a/b/f.go" 15 (Some (mkFunc "main.main" "/a/b/f.go" 15))].
Definition demo_tall_stack : Stack :=
  repeat (mkFrame "/a/b/deep.go" 7 (Some (mkFunc "main.descend" "/a/b/deep.go" 7)))
    104.
Definition demo_world : World (go := demo_lib) := mkWorld demo_time [].

(** * Reference definitions

    What the statements below compare the code with.

    The printer of the Standard Library ([N.to_uint] followed by
    [string_of_uint], which [fmt_d] uses) is the reference for "in decimal";
    the loop of [itoa] peels the same digits off, last one first. *)

Module Dec.

Definition cons_digit (r : N) (d : Decimal.uint) : Decimal.uint :=
  match r with
  | 0 => Decimal.D0 d | 1 => Decimal.D1 d | 2 => Decimal.D2 d
  | 3 => Decimal.D3 d | 4 => Decimal.D4 d | 5 => Decimal.D5 d
  | 6 => Decimal.D6 d | 7 => Decimal.D7 d | 8 => Decimal.D8 d
  | _ => Decimal.D9 d
  end%N.

(** Little-endian digits of [n], none for zero. *)
Definition lu (n : N) : Decimal.uint :=
  match n with
  | N0 => Decimal.Nil
  | Npos p => Pos.to_little_uint p
  end.

End Dec.

(** [n] characters ["0"]. *)
Fixpoint zeros (n : nat) : string :=
  match n with
  | O => ""
  | S k => String "0" (zeros k)
  end.

(** [d] with zeros in front up to [wid] characters; a longer [d] is kept
    whole. *)
Definition zero_pad (wid : Z) (d : string) : string :=
  zeros (Z.to_nat (wid - Z.of_nat (length d))) ++ d.

(** The digits of [u], none for zero. *)
Definition digs (u : Z) : string :=
  NilEmpty.string_of_uint (Decimal.rev (Dec.lu (Z.to_N u))).

(** The number of newlines [s] ends in. *)
Fixpoint leading_LF (l : list ascii) : nat :=
  match l with
  | c :: l' => if Ascii.eqb c LF then S (leading_LF l') else O
  | [] => O
  end.

Definition trailing_newlines (s : string) : nat :=
  leading_LF (rev (list_ascii_of_string s)).

(** The byte [s[len(s)-1]]. *)
Definition last_byte (s : string) : option ascii := get (length s - 1) s.

Definition ends_in_newline (s : string) : bool :=
  match last_byte s with
  | Some c => Ascii.eqb c LF
  | None => false
  end.

Section Lines.
Context {go : GoLib}.

(** The text ["(file:line) "] that [Output] puts in front of the message:
    empty unless [calldepth > 0] and a file flag is set.  [stk] is the stack
    of the caller of [Output]. *)
Definition file_info (l : Logger) (calldepth : Z) (stk : Stack) : string :=
  if (calldepth >? 0)%Z
  then
    if negb (Z.land (flag l) (Z.lor Lshortfile Llongfile) =? 0)%Z then
      let '(file, line) :=
        match Caller calldepth (self_frame "Output" 286 :: stk) with
        | Some fl => fl
        | None => ("???", 0%Z)
        end in
      "(" ++ (if negb (Z.land (flag l) Lshortfile =? 0)%Z
              then shortfile file else file)
          ++ ":" ++ fmt_d line ++ ") "
    else ""
  else "".

(** The priority tag and the header, absent for a syslog destination. *)
Definition tag_header (l : Logger) (p : Priority) (t : Time) : string :=
  if (Z.land (flag l) Lsyslog =? 0)%Z
  then "<" ++ fmt_d p ++ ">:"
       ++ match formatHeader l t with Some h => h | None => "" end
  else "".

(** The line [Output] hands off for a non-empty message [s] at time [t]. *)
Definition line_of (l : Logger) (calldepth : Z) (p : Priority) (s : string)
    (stk : Stack) (t : Time) : string :=
  tag_header l p t ++ file_info l calldepth stk ++ s
  ++ (if ends_in_newline s then "" else nl).

(** The block [Backtrace] hands off. *)
Definition backtrace_block (depth : Z) (stk : Stack) : string :=
  "Backtrace:" ++ nl ++ "    " ++ concat (nl ++ "    ") (bt_entries depth stk).

(** The frames [Backtrace] has captured: what [runtime.Callers(3, pc)]
    stored in its 64 slots.  [stk] is the stack of the caller of
    [Backtrace]. *)
Definition captured (stk : Stack) : list Frame :=
  Callers 3 64 (self_frame "Backtrace" 329 :: stk).

(** The leveled methods and the table the documentation gives for them. *)
Inductive Method := MDebug | MInfo | MWarn | MError | MCrit.

Definition call (m : Method)
  : Logger -> string -> list Arg -> Stack -> M unit :=
  match m with
  | MDebug => Debug
  | MInfo => Info
  | MWarn => Warn
  | MError => Error
  | MCrit => Crit
  end.

Definition documented_priority (m : Method) : Priority :=
  match m with
  | MDebug => LOG_DEBUG
  | MInfo => LOG_INFO
  | MWarn => LOG_WARNING
  | MError => LOG_ERR
  | MCrit => LOG_CRIT
  end.

Definition documented_depth (m : Method) : Z :=
  match m with
  | MDebug => 2
  | MInfo => 0
  | MWarn => 0
  | MError => 2
  | MCrit => 2
  end.

Definition method_name (m : Method) : string :=
  match m with
  | MDebug => "Debug"
  | MInfo => "Info"
  | MWarn => "Warn"
  | MError => "Error"
  | MCrit => "Crit"
  end.

(** The line of its own source at which a leveled method calls [Output]. *)
Definition method_line (m : Method) : Z :=
  match m with
  | MDebug => 432
  | MInfo => 423
  | MWarn => 414
  | MError => 406
  | MCrit => 397
  end.

(** The lines a trace hands off, in order. *)
Definition sends (tr : list Event) : list string :=
  flat_map (fun e => match e with EvSend s => [s] | EvSprintf _ _ => [] end) tr.

(** The world a leveled method leaves behind when it passes the threshold:
    the message formatted, and its line handed off unless it is empty. *)
Definition logged (m : Method) (l : Logger) (format : string)
    (v : list Arg) (stk : Stack) (w : World) : World :=
  let s := Sprintf format v in
  mkWorld (now w)
    (trace w ++ EvSprintf format v ::
       (if String.eqb s "" then []
        else [EvSend (line_of l (documented_depth m) (documented_priority m) s
                        (self_frame (method_name m) (method_line m) :: stk)
                        (now w))])).

(** The world [Fatal] leaves behind. *)
Definition fatal_world (l : Logger) (format : string) (v : list Arg)
    (stk : Stack) (w : World) : World :=
  let s := Sprintf format v in
  mkWorld (now w)
    (trace w ++ EvSprintf format v ::
       (if String.eqb s "" then []
        else [EvSend (line_of l 2 LOG_EMERG s
                        (self_frame "Fatal" 377 :: stk) (now w))])
       ++ [EvSend (backtrace_block 0 (self_frame "Fatal" 378 :: stk))]).

End Lines.

(** * The worker and the destination

    [newLogger] makes an unbuffered channel and starts one goroutine that
    forever receives a string from it and writes the string to [l.out].  A
    hand-off is a rendezvous: it takes place when the caller is at a send
    and the worker is at its receive.  Between the hand-off and the write
    that follows, the worker holds the string.  [os.Exit] ends the process
    at once, the worker with it. *)

Inductive Worker :=
| Receiving
| Writing (s : string).

(** What the calling goroutine has left to do. *)
Inductive Action :=
| ActSend (s : string)
| ActExit (code : Z).

Record System := mkSystem {
  caller : list Action;
  worker : Worker;
  written : list string;
  exit_status : option Z
}.

Inductive step : System -> System -> Prop :=
| step_handoff (s : string) (rest : list Action) (d : list string) :
    step (mkSystem (ActSend s :: rest) Receiving d None)
         (mkSystem rest (Writing s) d None)
| step_write (acts : list Action) (s : string) (d : list string) :
    step (mkSystem acts (Writing s) d None)
         (mkSystem acts Receiving (d ++ [s]) None)
| step_exit (code : Z) (rest : list Action) (wk : Worker) (d : list string) :
    step (mkSystem (ActExit code :: rest) wk d None)
         (mkSystem [] wk d (Some code)).

Inductive run : System -> System -> Prop :=
| run_done (x : System) : run x x
| run_step (x y z : System) : step x y -> run y z -> run x z.

Section Programs.
Context {go : GoLib}.

(** The channel and process actions of a call that started on an empty
    trace: its hand-offs in order, then its exit if it exits. *)
Definition actions_of {A : Type} (r : Outcome A * World) : list Action :=
  (map ActSend (sends (trace (snd r)))
   ++ match fst r with
      | Exited code => [ActExit code]
      | _ => []
      end)%list.

(** The logger at rest: the worker at its receive, nothing written. *)
Definition start (acts : list Action) : System :=
  mkSystem acts Receiving [] None.

End Programs.

(** * The rest of the package

    The tables of priority names, with Go's reading of a map: indexing a
    key that is absent gives the zero value of the element type. *)

Definition PrioName_table : list (string * Priority) :=
  [ ("LOG_DEBUG", LOG_DEBUG);
    ("LOG_INFO", LOG_INFO);
    ("LOG_WARNING", LOG_WARNING);
    ("LOG_WARN", LOG_WARNING);
    ("LOG_ERR", LOG_ERR);
    ("LOG_ERROR", LOG_ERR);
    ("LOG_CRIT", LOG_CRIT);
    ("LOG_EMERG", LOG_EMERG);
    ("DEBUG", LOG_DEBUG);
    ("INFO", LOG_INFO);
    ("WARNING", LOG_WARNING);
    ("WARN", LOG_WARNING);
    ("ERR", LOG_ERR);
    ("ERROR", LOG_ERR);
    ("CRIT", LOG_CRIT);
    ("CRITICAL", LOG_CRIT);
    ("EMERG", LOG_EMERG);
    ("EMERGENCY", LOG_EMERG) ].

Definition PrioString_table : list (Priority * string) :=
  [ (LOG_DEBUG, "DEBUG");
    (LOG_INFO, "INFO");
    (LOG_WARNING, "WARNING");
    (LOG_ERR, "ERROR");
    (LOG_CRIT, "CRITICAL");
    (LOG_EMERG, "EMERGENCY") ].

(** [v, ok := m[k]] *)
Fixpoint map_lookup {K V : Type} (eqb : K -> K -> bool) (m : list (K * V))
    (k : K) : option V :=
  match m with
  | [] => None
  | (k', v) :: m' => if eqb k' k then Some v else map_lookup eqb m' k
  end.

(** [PrioName[name]]: [LOG_NONE], the zero [Priority], for an absent name. *)
Definition PrioName (name : string) : Priority :=
  match map_lookup String.eqb PrioName_table name with
  | Some p => p
  | None => 0%Z
  end.

(** [PrioString[p]]: the empty string for an absent priority. *)
Definition PrioString (p : Priority) : string :=
  match map_lookup Z.eqb PrioString_table p with
  | Some s => s
  | None => ""
  end.

(** The number a string of decimal digits stands for, leading zeros
    allowed; [None] when a byte is not a digit. *)
Definition atoi (s : string) : option Z :=
  match NilEmpty.uint_of_string s with
  | Some d => Some (Z.of_N (N.of_uint d))
  | None => None
  end.

(** A time whose fields are those of a calendar date and a clock. *)
Definition in_calendar (t : Time) : Prop :=
  (0 <= year t <= 9999 /\ 1 <= month t <= 12 /\ 1 <= day t <= 31
   /\ 0 <= hour t <= 23 /\ 0 <= minute t <= 59 /\ 0 <= second t <= 59
   /\ 0 <= nanosecond t <= 999999999)%Z.

(** No byte of [s] is a slash. *)
Fixpoint no_slash (s : string) : bool :=
  match s with
  | EmptyString => true
  | String c s' => negb (Ascii.eqb c "/") && no_slash s'
  end.

Section MoreLines.
Context {go : GoLib}.

(** The number of bytes of the header the flags of [l] ask for: ten for the
    date, nine for the time with the blank in front of it, seven for the
    microseconds, one for the blank that ends it. *)
Definition header_length (l : Logger) : nat :=
  if (Z.land (flag l) (Z.lor (Z.lor Ldate Ltime) Lmicroseconds) =? 0)%Z then 0
  else
    (if (Z.land (flag l) Ldate =? 0)%Z then 0 else 10)
    + (if (Z.land (flag l) (Z.lor Ltime Lmicroseconds) =? 0)%Z then 0
       else 9 + (if (Z.land (flag l) Lmicroseconds =? 0)%Z then 0 else 7))
    + 1.

(** Where a method of calldepth 2 was called from: the frame that heads the
    stack of its caller, or what [Output] writes when the runtime finds
    none. *)
Definition call_site (stk : Stack) : string * Z :=
  match stk with
  | f :: _ => (fr_file f, fr_line f)
  | [] => ("???", 0%Z)
  end.

(** The world [Panic] leaves behind. *)
Definition panic_world (l : Logger) (format : string) (v : list Arg)
    (stk : Stack) (w : World) : World :=
  let s := Sprintf format v in
  mkWorld (now w)
    (trace w ++ EvSprintf format v ::
       (if String.eqb s "" then []
        else [EvSend (line_of l 2 LOG_EMERG s
                        (self_frame "Panic" 386 :: stk) (now w))])
       ++ [EvSend (backtrace_block 5 (self_frame "Panic" 387 :: stk))]).

End MoreLines.

(** * Proofs *)

(** ** Decimal rendering *)

Module DecFacts.

Import DecimalPos.Unsigned.
Import Dec.

Lemma small_cases (r : N) :
  (r < 10)%N ->
  r = 0%N \/ r = 1%N \/ r = 2%N \/ r = 3%N \/ r = 4%N \/
  r = 5%N \/ r = 6%N \/ r = 7%N \/ r = 8%N \/ r = 9%N.
Proof. lia. Qed.

Lemma to_lu_add_digit (p : positive) (r : N) :
  (r < 10)%N ->
  to_lu (10 * Npos p + r) = cons_digit r (to_lu (Npos p)).
Proof.
  intros Hr.
  assert (E0 : to_lu (10 * Npos p + 0) = Decimal.D0 (to_lu (Npos p))).
  { rewrite N.add_0_r. apply to_ldec_tenfold. }
  assert (step : forall k, (10 * N.pos p + N.succ k = N.succ (10 * N.pos p + k))%N)
    by (intros; lia).
  destruct (small_cases r Hr) as [->|[->|[->|[->|[->|[->|[->|[->|[->| ->]]]]]]]]];
    [ exact E0 | .. ];
    repeat match goal with
    | |- context [ (10 * N.pos p + N.pos ?q)%N ] =>
        change (N.pos q) with (N.succ (N.pred (N.pos q)));
        rewrite step; cbn [N.pred Pos.pred_N Pos.pred_double]; rewrite to_lu_succ
    end;
    rewrite E0; reflexivity.
Qed.

Lemma lu_step (n : N) :
  (0 < n)%N -> lu n = cons_digit (n mod 10) (lu (n / 10)).
Proof.
  intros Hn.
  pose proof (N.Div0.div_mod n 10) as Hdm.
  pose proof (N.mod_lt n 10 ltac:(discriminate)) as Hlt.
  destruct (n / 10)%N as [|q] eqn:Hq.
  - rewrite N.mul_0_r, N.add_0_l in Hdm.
    rewrite <- Hdm.
    rewrite <- Hdm in Hlt.
    destruct (small_cases n Hlt) as [->|[->|[->|[->|[->|[->|[->|[->|[->| ->]]]]]]]]];
      try reflexivity; lia.
  - destruct n as [|p]; [lia|].
    cbn [lu]. change (Pos.to_little_uint p) with (to_lu (N.pos p)).
    rewrite Hdm at 1.
    rewrite to_lu_add_digit by exact Hlt. reflexivity.
Qed.

End DecFacts.

(** ** Strings *)

Lemma sapp_nil_r (s : string) : s ++ "" = s.
Proof. induction s; cbn; congruence. Qed.

Lemma sapp_assoc (a b c : string) : (a ++ b) ++ c = a ++ b ++ c.
Proof. induction a; cbn; congruence. Qed.

Lemma slength_app (a b : string) : length (a ++ b) = (length a + length b)%nat.
Proof. induction a; cbn; congruence. Qed.

Lemma of_list_app (a b : list ascii) :
  string_of_list_ascii (a ++ b)%list
  = string_of_list_ascii a ++ string_of_list_ascii b.
Proof. induction a; cbn; congruence. Qed.

Lemma to_list_app (a b : string) :
  list_ascii_of_string (a ++ b)
  = (list_ascii_of_string a ++ list_ascii_of_string b)%list.
Proof. induction a; cbn; congruence. Qed.

Lemma zeros_snoc (n : nat) : zeros n ++ "0" = zeros (S n).
Proof. induction n; cbn in *; congruence. Qed.

Lemma zeros_length (n : nat) : length (zeros n) = n.
Proof. induction n; cbn; congruence. Qed.

Lemma sou_revapp (x y : Decimal.uint) :
  NilEmpty.string_of_uint (Decimal.revapp x y)
  = NilEmpty.string_of_uint (Decimal.rev x) ++ NilEmpty.string_of_uint y.
Proof.
  unfold Decimal.rev. revert y.
  induction x; intros y; cbn [Decimal.revapp]; try reflexivity;
    rewrite IHx; symmetry; rewrite IHx; rewrite sapp_assoc; reflexivity.
Qed.

Lemma digs_step (u : Z) :
  (0 < u)%Z -> digs u = digs (u / 10) ++ String (digit u) "".
Proof.
  intros Hu. unfold digs.
  rewrite Z2N.inj_div by lia. change (Z.to_N 10) with 10%N.
  rewrite (DecFacts.lu_step (Z.to_N u)) by lia.
  assert (Hd : digit u = ascii_of_nat (N.to_nat (Z.to_N u mod 10) + 48)).
  { unfold digit. f_equal. f_equal.
    rewrite <- Z_N_nat. f_equal.
    change 10%N with (Z.to_N 10). rewrite <- Z2N.inj_mod by lia. reflexivity. }
  rewrite Hd.
  pose proof (N.mod_lt (Z.to_N u) 10 ltac:(discriminate)) as Hlt.
  generalize dependent (Z.to_N u mod 10)%N. intros r _ Hr.
  generalize (Dec.lu (Z.to_N u / 10)). intros d.
  destruct (DecFacts.small_cases r Hr) as [->|[->|[->|[->|[->|[->|[->|[->|[->| ->]]]]]]]]];
    cbn [Dec.cons_digit]; unfold Decimal.rev at 1; cbn [Decimal.revapp];
    rewrite sou_revapp; reflexivity.
Qed.

Lemma digs_0 : digs 0 = "".
Proof. reflexivity. Qed.

Lemma digs_fmt_d (u : Z) : (0 < u)%Z -> digs u = fmt_d u.
Proof.
  intros Hu. destruct u as [|p|p]; try lia.
  change (digs (Z.pos p)) with (NilEmpty.string_of_uint (Pos.to_uint p)).
  change (fmt_d (Z.pos p)) with (NilZero.string_of_uint (Pos.to_uint p)).
  pose proof (DecimalPos.Unsigned.to_uint_nonnil p) as Hnn.
  unfold NilZero.string_of_uint.
  destruct (Pos.to_uint p); [congruence | reflexivity ..].
Qed.

(** ** The loop of [itoa] *)

Lemma int_wrap_id (z : Z) :
  (- 2 ^ 63 <= z < 2 ^ 63)%Z -> int_wrap z = z.
Proof.
  intros Hz. unfold int_wrap. rewrite Z.mod_small by lia. lia.
Qed.

Lemma int_wrap_min : int_wrap (- 2 ^ 63 - 1) = (2 ^ 63 - 1)%Z.
Proof. reflexivity. Qed.

Lemma digs_length_bound (k : nat) :
  forall u, (0 <= u < 10 ^ Z.of_nat k)%Z -> (length (digs u) <= k)%nat.
Proof.
  induction k as [|k IH]; intros u Hu.
  - change (10 ^ Z.of_nat 0)%Z with 1%Z in Hu.
    assert (u = 0%Z) by lia. subst u. rewrite digs_0. cbn [length]. lia.
  - destruct (Z.eq_dec u 0) as [->|Hnz].
    + rewrite digs_0. cbn [length]. lia.
    + rewrite (digs_step u) by lia. rewrite slength_app. cbn [length].
      assert (Hq : (0 <= u / 10 < 10 ^ Z.of_nat k)%Z).
      { split; [apply Z.div_pos; lia|].
        apply Z.div_lt_upper_bound; [lia|].
        rewrite Nat2Z.inj_succ, Z.pow_succ_r in Hu by lia. lia. }
      specialize (IH _ Hq). lia.
Qed.

Lemma digs_nonempty (u : Z) : (0 < u)%Z -> (1 <= length (digs u))%nat.
Proof.
  intros Hu. rewrite (digs_step u Hu), slength_app. cbn [length]. lia.
Qed.

(** The loop on a width that does not wrap: not above the free part of the
    buffer, and far enough from the least [int] for the digits of [u]. *)
Lemma itoa_loop_spec (bp : nat) :
  forall (u wid : Z) (buf : list ascii),
    (bp <= 32)%nat ->
    (0 <= u < 10 ^ Z.of_nat bp)%Z ->
    (- 2 ^ 63 + Z.of_nat (length (digs u)) <= wid <= Z.of_nat bp)%Z ->
    itoa_loop bp u wid buf
    = Some (list_ascii_of_string (zero_pad wid (digs u)) ++ buf)%list.
Proof.
  induction bp as [|bp IH]; intros u wid buf Hbp Hu Hw.
  - change (10 ^ Z.of_nat 0)%Z with 1%Z in Hu.
    assert (u = 0%Z) by lia. subst u.
    cbn [itoa_loop]. replace (0 <? wid)%Z with false by lia.
    change (0 <? 0)%Z with false. cbn [orb].
    unfold zero_pad. rewrite digs_0. cbn [length].
    replace (Z.to_nat (wid - Z.of_nat 0)) with O by lia. reflexivity.
  - cbn [itoa_loop].
    destruct ((0 <? u)%Z || (0 <? wid)%Z) eqn:Hc.
    + assert (Hq : (0 <= u / 10 < 10 ^ Z.of_nat bp)%Z).
      { split; [apply Z.div_pos; lia|].
        apply Z.div_lt_upper_bound; [lia|].
        rewrite Nat2Z.inj_succ, Z.pow_succ_r in Hu by lia. lia. }
      destruct (Z.eq_dec u 0) as [->|Hnz].
      * assert (0 < wid)%Z by (cbn in Hc; lia).
        rewrite int_wrap_id by lia.
        change (0 / 10)%Z with 0%Z in *.
        rewrite IH by (try exact Hq; rewrite ?digs_0; cbn [length]; lia).
        f_equal. rewrite digs_0.
        unfold zero_pad. cbn [length]. rewrite !sapp_nil_r.
        replace (Z.to_nat (wid - Z.of_nat 0)) with (S (Z.to_nat (wid - 1 - Z.of_nat 0))) by lia.
        rewrite <- zeros_snoc, !to_list_app, <- !app_assoc. reflexivity.
      * pose proof (digs_step u ltac:(lia)) as Hs.
        assert (Hlen : length (digs u) = S (length (digs (u / 10)))).
        { rewrite Hs, slength_app. cbn [length]. lia. }
        rewrite int_wrap_id by lia.
        rewrite IH by (try exact Hq; lia).
        f_equal. rewrite Hs.
        unfold zero_pad. rewrite slength_app. cbn [length].
        replace (Z.to_nat (wid - Z.of_nat (length (digs (u / 10)) + 1)))
          with (Z.to_nat (wid - 1 - Z.of_nat (length (digs (u / 10))))) by lia.
        rewrite <- sapp_assoc, !to_list_app, <- !app_assoc. reflexivity.
    + apply orb_false_elim in Hc. destruct Hc as [Hc1 Hc2].
      assert (u = 0%Z) by lia. subst u.
      unfold zero_pad. rewrite digs_0. cbn [length].
      replace (Z.to_nat (wid - Z.of_nat 0)) with O by lia. reflexivity.
Qed.

Lemma pow2_64_lt : (2 ^ 64 < 10 ^ Z.of_nat 32)%Z.
Proof. reflexivity. Qed.

Lemma uint_range (i : Z) : (0 <= uint i < 10 ^ Z.of_nat 32)%Z.
Proof.
  unfold uint. pose proof (Z.mod_pos_bound i (2 ^ 64) eq_refl) as Hb.
  pose proof pow2_64_lt. lia.
Qed.

(** A [uint] has at most 20 digits. *)
Lemma uint_digits (i : Z) : (length (digs (uint i)) <= 20)%nat.
Proof.
  apply digs_length_bound. unfold uint.
  pose proof (Z.mod_pos_bound i (2 ^ 64) eq_refl) as Hb.
  assert (2 ^ 64 < 10 ^ Z.of_nat 20)%Z by reflexivity. lia.
Qed.

(** What [itoa] returns for a width on which the loop does not wrap. *)
Lemma itoa_render_exact (i wid : Z) :
  (- 2 ^ 63 + Z.of_nat (length (digs (uint i))) <= wid <= 32)%Z ->
  itoa i wid = Some (zero_pad wid (fmt_d (uint i))).
Proof.
  intros Hw. pose proof (uint_range i) as Hr.
  assert (H32 : (- 2 ^ 63 + Z.of_nat (length (digs (uint i))) <= wid
                 <= Z.of_nat 32)%Z)
    by (change (Z.of_nat 32) with 32%Z; exact Hw).
  unfold itoa.
  destruct (Z.eq_dec (uint i) 0) as [E0|Hnz].
  - rewrite E0 in *. change (0 =? 0)%Z with true. cbn [andb].
    change (fmt_d 0) with "0". unfold zero_pad. cbn [length].
    destruct (Z.leb_spec wid 1) as [Hw1|Hw1].
    + replace (Z.to_nat (wid - Z.of_nat 1)) with O by lia. reflexivity.
    + rewrite (itoa_loop_spec 32 0 wid [] (le_n 32) Hr H32).
      rewrite List.app_nil_r, string_of_list_ascii_of_string, digs_0.
      unfold zero_pad. cbn [length].
      replace (Z.to_nat (wid - Z.of_nat 0))
        with (S (Z.to_nat (wid - Z.of_nat 1))) by lia.
      rewrite <- zeros_snoc, sapp_nil_r. reflexivity.
  - assert (E : (uint i =? 0)%Z = false) by (apply Z.eqb_neq; exact Hnz).
    rewrite E. cbn [andb].
    rewrite (itoa_loop_spec 32 (uint i) wid [] (le_n 32) Hr H32).
    rewrite List.app_nil_r, string_of_list_ascii_of_string.
    rewrite digs_fmt_d by lia. reflexivity.
Qed.

(** [itoa] returns a string whenever the width fits the buffer and is not
    within 20 of the least [int]. *)
Lemma itoa_total (i wid : Z) :
  (- 2 ^ 63 + 20 <= wid <= 32)%Z -> exists s, itoa i wid = Some s.
Proof.
  intros Hw. pose proof (uint_digits i).
  rewrite itoa_render_exact by lia. eauto.
Qed.

(** ** Output *)

Section OutputFacts.
Context {go : GoLib}.

Lemma formatHeader_total (l : Logger) (t : Time) :
  exists h, formatHeader l t = Some h.
Proof.
  unfold formatHeader.
  destruct (itoa_total (year t) 4) as [y Hy]; [lia|].
  destruct (itoa_total (month t) 2) as [m Hm]; [lia|].
  destruct (itoa_total (day t) 2) as [d Hd]; [lia|].
  destruct (itoa_total (hour t) 2) as [hh Hhh]; [lia|].
  destruct (itoa_total (minute t) 2) as [mm Hmm]; [lia|].
  destruct (itoa_total (second t) 2) as [ss Hss]; [lia|].
  destruct (itoa_total (Z.quot (nanosecond t) 1000) 6) as [us Hus]; [lia|].
  rewrite Hy, Hm, Hd, Hhh, Hmm, Hss, Hus.
  repeat match goal with
         | |- context [ if negb ?b then _ else _ ] => destruct b; cbn [negb]
         end; eauto.
Qed.

Lemma last_byte_cons (s : string) (a : ascii) :
  exists c, get (length s) (String a s) = Some c.
Proof.
  revert a. induction s as [|b s IH]; intros a.
  - exists a. reflexivity.
  - destruct (IH b) as [c Hc]. exists c. cbn [length get]. exact Hc.
Qed.

Lemma last_byte_some (s : string) : s <> "" -> exists c, last_byte s = Some c.
Proof.
  destruct s as [|a s]; [congruence|]. intros _.
  unfold last_byte. cbn [length]. rewrite Nat.sub_1_r. cbn [Nat.pred].
  apply last_byte_cons.
Qed.

Lemma length_nonempty (s : string) :
  s <> "" -> (Z.of_nat (length s) =? 0)%Z = false.
Proof.
  destruct s; [congruence|]. intros _. apply Z.eqb_neq. cbn [length]. lia.
Qed.

Lemma Output_empty (l : Logger) (calldepth : Z) (p : Priority) (stk : Stack)
    (w : World) :
  Output l calldepth p "" stk w = (Returned None, w).
Proof. reflexivity. Qed.

Lemma append_if_nonempty (a f : string) :
  (if (Z.of_nat (length f) >? 0)%Z then a ++ f else a) = a ++ f.
Proof.
  destruct f; cbn [length].
  - rewrite sapp_nil_r. reflexivity.
  - assert (E : (Z.of_nat (S (length f)) >? 0)%Z = true) by (apply Z.gtb_lt; lia).
    rewrite E. reflexivity.
Qed.

Lemma Output_nonempty (l : Logger) (calldepth : Z) (p : Priority) (s : string)
    (stk : Stack) (w : World) :
  s <> "" ->
  Output l calldepth p s stk w
  = (Returned None,
     mkWorld (now w) (trace w ++ [EvSend (line_of l calldepth p s stk (now w))])).
Proof.
  intros Hs.
  destruct (formatHeader_total l (now w)) as [h Hh].
  destruct (last_byte_some s Hs) as [c Hc].
  unfold Output. rewrite (length_nonempty s Hs).
  unfold line_of, tag_header, file_info, ends_in_newline.
  rewrite Hc. unfold last_byte in Hc.
  unfold bind, time_Now, lift, ret, send, emit.
  rewrite Hc, Hh.
  destruct (Z.land (flag l) Lsyslog =? 0)%Z; rewrite ?Hh; cbv beta iota.
  all: destruct (calldepth >? 0)%Z; rewrite ?append_if_nonempty.
  all: destruct (Ascii.eqb c LF); cbn [negb now trace].
  all: rewrite ?sapp_assoc, ?sapp_nil_r; reflexivity.
Qed.

End OutputFacts.

(** ** Newlines *)

Lemma last_byte_rev (s : string) :
  last_byte s = hd_error (rev (list_ascii_of_string s)).
Proof.
  unfold last_byte.
  induction s as [|a s IH]; [reflexivity|].
  cbn [length list_ascii_of_string rev].
  rewrite Nat.sub_1_r. cbn [Nat.pred].
  destruct s as [|b s]; [reflexivity|].
  cbn [length get] in *. rewrite Nat.sub_1_r in IH. cbn [Nat.pred] in IH.
  rewrite IH. cbn [list_ascii_of_string rev].
  destruct (rev (list_ascii_of_string s)); reflexivity.
Qed.

Lemma ends_in_newline_app (h s : string) :
  s <> "" -> ends_in_newline (h ++ s) = ends_in_newline s.
Proof.
  intros Hs. unfold ends_in_newline.
  rewrite !last_byte_rev, to_list_app, rev_app_distr.
  destruct s as [|a s]; [congruence|].
  cbn [list_ascii_of_string rev].
  destruct (rev (list_ascii_of_string s)); reflexivity.
Qed.

Lemma ends_in_newline_nl (x : string) : ends_in_newline (x ++ nl) = true.
Proof.
  unfold ends_in_newline. rewrite last_byte_rev, to_list_app, rev_app_distr.
  reflexivity.
Qed.

Lemma trailing_newlines_nl (x : string) :
  ends_in_newline x = false -> trailing_newlines (x ++ nl) = 1%nat.
Proof.
  unfold ends_in_newline, trailing_newlines.
  rewrite last_byte_rev, to_list_app, rev_app_distr.
  cbn [nl list_ascii_of_string rev app leading_LF].
  rewrite Ascii.eqb_refl.
  destruct (rev (list_ascii_of_string x)) as [|c r]; cbn [hd_error leading_LF].
  - reflexivity.
  - intros ->. reflexivity.
Qed.

Lemma trailing_newlines_pos (x : string) :
  ends_in_newline x = true -> (1 <= trailing_newlines x)%nat.
Proof.
  unfold ends_in_newline, trailing_newlines. rewrite last_byte_rev.
  destruct (rev (list_ascii_of_string x)) as [|c r]; cbn [hd_error leading_LF].
  - discriminate.
  - intros ->. lia.
Qed.

(** ** Backtrace *)

Lemma skipn_nth {A} (d : A) (l : list A) :
  forall i, (i < List.length l)%nat -> skipn i l = nth i l d :: skipn (S i) l.
Proof.
  induction l as [|x l IH]; intros i Hi; cbn [List.length] in Hi; [lia|].
  destruct i as [|i]; [reflexivity|].
  cbn [skipn nth]. apply IH. lia.
Qed.

Section BacktraceFacts.
Context {go : GoLib}.

Lemma bt_loop_spec (pc : list Frame) :
  forall (todo i : nat) (v : list string),
    (i + todo <= List.length pc)%nat ->
    bt_loop pc i todo v
    = (v ++ map frame_line (firstn todo (skipn i pc)))%list.
Proof.
  induction todo as [|k IH]; intros i v Hb; cbn [bt_loop].
  - cbn [firstn map]. rewrite List.app_nil_r. reflexivity.
  - rewrite IH by lia.
    rewrite (skipn_nth no_frame pc i) by lia.
    cbn [firstn map]. rewrite <- app_assoc. reflexivity.
Qed.

Lemma captured_eq (stk : Stack) : captured stk = firstn 64 (tl stk).
Proof. destruct stk; reflexivity. Qed.

Lemma captured_length (stk : Stack) : (List.length (captured stk) <= 64)%nat.
Proof. rewrite captured_eq. apply firstn_le_length. Qed.

Lemma bt_entries_all (stk : Stack) :
  bt_entries 0 stk = (map frame_line (captured stk) ++ [nl])%list.
Proof.
  unfold bt_entries. fold (captured stk).
  change ((0 =? 0)%Z || _) with true. cbv beta iota.
  rewrite Nat2Z.id, bt_loop_spec by (rewrite Nat.add_0_l; lia).
  cbn [skipn app]. rewrite firstn_all. reflexivity.
Qed.

Lemma bt_entries_depth (depth : Z) (stk : Stack) :
  (0 < depth < Z.of_nat (List.length (captured stk)))%Z ->
  bt_entries depth stk
  = (map frame_line (firstn (Z.to_nat depth) (captured stk)) ++ [nl])%list.
Proof.
  intros Hd. unfold bt_entries. fold (captured stk).
  assert (E1 : (depth =? 0)%Z = false) by (apply Z.eqb_neq; lia).
  assert (E2 : (depth >? Z.of_nat (List.length (captured stk)))%Z = false).
  { rewrite Z.gtb_ltb. apply Z.ltb_ge. lia. }
  assert (E3 : (Z.of_nat (List.length (captured stk)) >? depth)%Z = true)
    by (apply Z.gtb_lt; lia).
  rewrite E1, E2, E3. cbv beta iota. cbn [orb].
  rewrite bt_loop_spec by (rewrite Nat.add_0_l; lia).
  reflexivity.
Qed.

Lemma bt_entries_general (depth : Z) (stk : Stack) :
  bt_entries depth stk
  = (map frame_line
       (firstn (if (depth =? 0)%Z then 64 else Z.to_nat depth) (captured stk))
     ++ [nl])%list.
Proof.
  pose proof (captured_length stk) as Hc.
  destruct (Z.eqb_spec depth 0) as [->|Hnz].
  - rewrite bt_entries_all, firstn_all2 by exact Hc. reflexivity.
  - destruct (Z_lt_ge_dec depth (Z.of_nat (List.length (captured stk))))
      as [Hlt|Hge].
    + destruct (Z_lt_ge_dec 0 depth) as [Hpos|Hneg].
      * apply bt_entries_depth. lia.
      * unfold bt_entries. fold (captured stk).
        assert (E1 : (depth =? 0)%Z = false) by (apply Z.eqb_neq; lia).
        assert (E2 : (depth >? Z.of_nat (List.length (captured stk)))%Z = false)
          by (rewrite Z.gtb_ltb; apply Z.ltb_ge; lia).
        assert (E3 : (Z.of_nat (List.length (captured stk)) >? depth)%Z = true)
          by (apply Z.gtb_lt; lia).
        rewrite E1, E2, E3. cbv beta iota. cbn [orb].
        replace (Z.to_nat depth) with O by lia. reflexivity.
    + unfold bt_entries. fold (captured stk).
      assert (E1 : (depth =? 0)%Z = false) by (apply Z.eqb_neq; lia).
      rewrite E1. cbn [orb].
      rewrite firstn_all2 by lia.
      destruct (depth >? Z.of_nat (List.length (captured stk)))%Z eqn:E2.
      * cbv beta iota. rewrite Nat2Z.id.
        rewrite bt_loop_spec by (rewrite Nat.add_0_l; lia).
        cbn [skipn]. rewrite firstn_all. reflexivity.
      * assert (E3 : (Z.of_nat (List.length (captured stk)) >? depth)%Z = false)
          by (rewrite Z.gtb_ltb; apply Z.ltb_ge; lia).
        rewrite E3. cbv beta iota. rewrite Nat2Z.id.
        rewrite bt_loop_spec by (rewrite Nat.add_0_l; lia).
        cbn [skipn]. rewrite firstn_all. reflexivity.
Qed.

End BacktraceFacts.

(** ** Traces *)

Lemma app_two_neq_nil {A} (l : list A) (x y : A) : l <> (l ++ [x; y])%list.
Proof.
  intros E. apply (f_equal (@List.length A)) in E.
  rewrite length_app in E. cbn in E. lia.
Qed.

Lemma app_one_neq_two {A} (l : list A) (x y z : A) :
  (l ++ [x])%list <> (l ++ [y; z])%list.
Proof.
  intros E. apply (f_equal (@List.length A)) in E.
  rewrite !length_app in E. cbn in E. lia.
Qed.

(** ** Leveled methods *)

Section MethodFacts.
Context {go : GoLib}.

Lemma call_run (m : Method) (l : Logger) (format : string) (v : list Arg)
    (stk : Stack) (w : World) :
  call m l format v stk w
  = if Loggable l (documented_priority m)
    then (Returned tt, logged m l format v stk w)
    else (Returned tt, w).
Proof.
  unfold logged.
  destruct (String.eqb_spec (Sprintf format v) "") as [He|He].
  - destruct m; cbn [call documented_priority];
      unfold Debug, Info, Warn, Error, Crit;
      match goal with |- context [ Loggable l ?p ] => destruct (Loggable l p) end;
      try reflexivity;
      unfold bind, sprintf; rewrite He, Output_empty; reflexivity.
  - destruct m; cbn [call documented_priority];
      unfold Debug, Info, Warn, Error, Crit;
      match goal with |- context [ Loggable l ?p ] => destruct (Loggable l p) end;
      try reflexivity;
      unfold bind, sprintf; rewrite (Output_nonempty _ _ _ _ _ _ He);
      cbn [now trace ret]; rewrite <- app_assoc; reflexivity.
Qed.

End MethodFacts.

(** * The claims *)

Section Claims.
Context {go : GoLib}.

(** C1 (amended). For a threshold [T] of the enumeration and a leveled
    method of documented priority [P]: when [P < T] the call changes nothing
    and formats nothing; when [P >= T] it formats the message, and hands
    off a line exactly when the formatted message is not empty. *)
Theorem leveled_threshold (m : Method) (l : Logger) (format : string)
    (v : list Arg) (stk : Stack) (w : World) :
  (LOG_NONE <= prio l <= LOG_EMERG)%Z ->
  let P := documented_priority m in
  let r := call m l format v stk w in
  ((P < prio l)%Z -> r = (Returned tt, w))
  /\ ((P >= prio l)%Z -> r = (Returned tt, logged m l format v stk w))
  /\ ((P >= prio l)%Z <->
      exists tr, trace (snd r) = (trace w ++ EvSprintf format v :: tr)%list)
  /\ ((P >= prio l)%Z /\ Sprintf format v <> "" <->
      exists line,
        trace (snd r) = (trace w ++ [EvSprintf format v; EvSend line])%list).
Proof.
  intros HT P r. unfold r, P. rewrite call_run. unfold Loggable.
  assert (E0 : (prio l >=? LOG_NONE)%Z = true)
    by (rewrite Z.geb_leb; apply Z.leb_le; lia).
  rewrite E0. cbn [andb].
  destruct (Z_lt_ge_dec (documented_priority m) (prio l)) as [Hlt|Hge].
  - assert (E : (documented_priority m >=? prio l)%Z = false)
      by (rewrite Z.geb_leb; apply Z.leb_gt; lia).
    rewrite E. cbn [snd].
    split; [reflexivity|]. split; [lia|]. split; split.
    + lia.
    + intros [tr Htr]. exfalso.
      apply (f_equal (@List.length _)) in Htr.
      rewrite length_app in Htr. cbn in Htr. lia.
    + lia.
    + intros [line Hl]. exfalso. exact (app_two_neq_nil _ _ _ Hl).
  - assert (E : (documented_priority m >=? prio l)%Z = true)
      by (rewrite Z.geb_leb; apply Z.leb_le; lia).
    rewrite E. cbn [snd].
    split; [lia|]. split; [reflexivity|]. split; split.
    + intros _. unfold logged. cbn [trace]. eauto.
    + intros _. exact Hge.
    + intros [_ Hs]. unfold logged. cbn [trace].
      apply String.eqb_neq in Hs. rewrite Hs. eauto.
    + intros [line Hl]. split; [exact Hge|].
      unfold logged in Hl. cbn [trace] in Hl.
      destruct (String.eqb_spec (Sprintf format v) "") as [He|He];
        [|exact He].
      exfalso. exact (app_one_neq_two _ _ _ _ Hl).
Qed.

(** C2. [Output] returns nil for every calldepth, priority and message: an
    empty message leaves the world as it was, a non-empty message is
    formatted into one line and handed to the channel; no panic and no
    error reaches the caller. *)
Theorem Output_returns_success (l : Logger) (calldepth : Z) (p : Priority)
    (s : string) (stk : Stack) (w : World) :
  fst (Output l calldepth p s stk w) = Returned None
  /\ (s = "" -> snd (Output l calldepth p s stk w) = w)
  /\ (s <> "" ->
      snd (Output l calldepth p s stk w)
      = mkWorld (now w)
          (trace w ++ [EvSend (line_of l calldepth p s stk (now w))])).
Proof.
  destruct (string_dec s "") as [->|Hs].
  - rewrite Output_empty. repeat split; congruence.
  - rewrite (Output_nonempty l calldepth p s stk w Hs).
    repeat split; congruence.
Qed.

(** C3 (amended). For a non-empty message [Output] hands off the tag,
    header and file information followed by the message and by exactly one
    newline when the message does not end in one, by nothing when it does.
    The line always ends in a newline; it ends in exactly one when the
    message did not end in a newline, and [Output] never adds a second one
    to a message that did. *)
Theorem Output_appends_one_newline (l : Logger) (calldepth : Z) (p : Priority)
    (s : string) (stk : Stack) (w : World) :
  s <> "" ->
  let head := tag_header l p (now w) ++ file_info l calldepth stk in
  exists line,
    snd (Output l calldepth p s stk w)
    = mkWorld (now w) (trace w ++ [EvSend line])
    /\ ends_in_newline line = true
    /\ (ends_in_newline s = false ->
        line = head ++ s ++ nl /\ trailing_newlines line = 1%nat)
    /\ (ends_in_newline s = true ->
        line = head ++ s /\ (1 <= trailing_newlines line)%nat).
Proof.
  intros Hs head.
  exists (line_of l calldepth p s stk (now w)).
  rewrite (Output_nonempty l calldepth p s stk w Hs). cbn [snd].
  split; [reflexivity|].
  assert (E : forall e, tag_header l p (now w) ++ file_info l calldepth stk
                        ++ s ++ e = (head ++ s) ++ e)
    by (intros e; unfold head; rewrite !sapp_assoc; reflexivity).
  unfold line_of. rewrite E.
  destruct (ends_in_newline s) eqn:He.
  - rewrite sapp_nil_r.
    assert (Hl : ends_in_newline (head ++ s) = true)
      by (rewrite ends_in_newline_app; assumption).
    split; [exact Hl|]. split; [discriminate|]. intros _.
    split; [reflexivity|]. apply trailing_newlines_pos; exact Hl.
  - assert (Hl : ends_in_newline (head ++ s) = false)
      by (rewrite ends_in_newline_app; assumption).
    split; [apply ends_in_newline_nl|]. split; [|discriminate]. intros _.
    split; [apply sapp_assoc|]. apply trailing_newlines_nl; exact Hl.
Qed.

(** C4. For a non-empty message: with [Lsyslog] set the line is the file
    information, the message and its newline, with no priority tag and no
    header in front, whatever the priority, the clock and the other flags;
    with [Lsyslog] clear the line begins with the tag [<N>:] followed by
    what [formatHeader] returns. *)
Theorem Output_syslog_or_tag (l : Logger) (calldepth : Z) (p : Priority)
    (s : string) (stk : Stack) (w : World) :
  s <> "" ->
  (Z.land (flag l) Lsyslog <> 0%Z ->
     snd (Output l calldepth p s stk w)
     = mkWorld (now w)
         (trace w ++ [EvSend (file_info l calldepth stk ++ s
                              ++ (if ends_in_newline s then "" else nl))]))
  /\ (Z.land (flag l) Lsyslog = 0%Z ->
      exists hdr,
        formatHeader l (now w) = Some hdr
        /\ snd (Output l calldepth p s stk w)
           = mkWorld (now w)
               (trace w ++ [EvSend ("<" ++ fmt_d p ++ ">:" ++ hdr
                                    ++ file_info l calldepth stk ++ s
                                    ++ (if ends_in_newline s then "" else nl))])).
Proof.
  intros Hs.
  rewrite (Output_nonempty l calldepth p s stk w Hs). cbn [snd].
  unfold line_of, tag_header.
  split; intros Hf.
  - apply Z.eqb_neq in Hf. rewrite Hf. reflexivity.
  - destruct (formatHeader_total l (now w)) as [h Hh].
    exists h. split; [exact Hh|].
    rewrite Hf, Hh. cbn [Z.eqb].
    rewrite !sapp_assoc. reflexivity.
Qed.

(** C5. On 2009-01-23 01:23:23.123123 with flags
    [Ldate|Ltime|Lmicroseconds], [formatHeader] returns
    ["2009/01/23 01:23:23.123123 "]; with none of the three flags set it
    returns the empty string for every time. *)
Theorem formatHeader_example_and_empty (l : Logger) (t : Time) :
  (flag l = Z.lor (Z.lor Ldate Ltime) Lmicroseconds ->
   formatHeader l (mkTime 2009 1 23 1 23 23 123123000)
   = Some "2009/01/23 01:23:23.123123 ")
  /\ (Z.land (flag l) Ldate = 0%Z ->
      Z.land (flag l) Ltime = 0%Z ->
      Z.land (flag l) Lmicroseconds = 0%Z ->
      formatHeader l t = Some "").
Proof.
  split.
  - intros Hf. unfold formatHeader. rewrite Hf. vm_compute. reflexivity.
  - intros Hd Ht Hm. unfold formatHeader.
    rewrite !Z.land_lor_distr_r, Hd, Ht, Hm. reflexivity.
Qed.

(** The hand-offs of [Fatal]: whatever the threshold, it formats the
    message, hands off its line at [LOG_EMERG] with calldepth 2 when the
    formatted message is not empty, hands off the block of [Backtrace(0)],
    and calls [os.Exit(1)]. *)
Lemma Fatal_sequence (l : Logger) (format : string) (v : list Arg)
    (stk : Stack) (w : World) :
  Fatal l format v stk w = (Exited 1, fatal_world l format v stk w)
  /\ (forall T, Fatal (SetPrio l T) format v stk w
                = (Exited 1, fatal_world l format v stk w)).
Proof.
  assert (H : forall l', flag l' = flag l ->
            Fatal l' format v stk w = (Exited 1, fatal_world l format v stk w)).
  { intros l' Hf. unfold Fatal, fatal_world, bind, sprintf.
    destruct (String.eqb_spec (Sprintf format v) "") as [He|He].
    - rewrite He, Output_empty. unfold Backtrace, send, emit, os_Exit.
      cbn [now trace]. rewrite <- app_assoc. reflexivity.
    - rewrite (Output_nonempty _ _ _ _ _ _ He).
      unfold Backtrace, send, emit, os_Exit. cbn [now trace].
      rewrite <- !app_assoc. cbn [app].
      unfold line_of, tag_header, file_info, formatHeader. rewrite Hf.
      reflexivity. }
  split; [apply H; reflexivity|].
  intros T; apply H; reflexivity.
Qed.

(** Case analysis on a run of at most [n] steps that ends in a state with
    an exit status. *)
Ltac settle_exit Hex :=
  cbn [exit_status written app] in *;
  first [ discriminate Hex
        | injection Hex as <-; split; [reflexivity | auto] ].

Ltac explore_run H Hex n :=
  lazymatch n with
  | O => idtac
  | S ?k =>
      let Hst := fresh "Hst" in
      let Hr := fresh "Hr" in
      inversion H as [? | ? ? ? Hst Hr]; subst; clear H;
      [ settle_exit Hex
      | inversion Hst; subst; clear Hst; explore_run Hr Hex k ]
  end.

(** C6. [Fatal] does not do what is asked of it: it hands the line and the
    backtrace to the worker and exits with status 1 without waiting for the
    worker to write.  The line is always written, since the worker takes
    the backtrace only after it wrote the line; the backtrace is written
    in some runs and lost in others, where the process ends while the
    worker still holds it. *)
Theorem Fatal_exit_races_backtrace (l : Logger) (format : string)
    (v : list Arg) (stk : Stack) (w : World) :
  trace w = [] ->
  Sprintf format v <> "" ->
  let line := line_of l 2 LOG_EMERG (Sprintf format v)
                (self_frame "Fatal" 377 :: stk) (now w) in
  let block := backtrace_block 0 (self_frame "Fatal" 378 :: stk) in
  let sys := start (actions_of (Fatal l format v stk w)) in
  (exists final,
      run sys final /\ exit_status final = Some 1%Z
      /\ written final = [line] /\ worker final = Writing block)
  /\ (exists final,
         run sys final /\ exit_status final = Some 1%Z
         /\ written final = [line; block])
  /\ (forall final code,
         run sys final -> exit_status final = Some code ->
         code = 1%Z /\ (written final = [line] \/ written final = [line; block])).
Proof.
  intros Hw Hs line block sys.
  assert (Hsys : sys = start [ActSend line; ActSend block; ActExit 1]).
  { unfold sys. destruct (Fatal_sequence l format v stk w) as [-> _].
    unfold actions_of, fatal_world. cbn [fst snd trace]. rewrite Hw.
    apply String.eqb_neq in Hs. rewrite Hs. reflexivity. }
  rewrite Hsys. clear Hsys sys. unfold start.
  split; [|split].
  - eexists. split.
    + eapply run_step; [apply step_handoff|].
      eapply run_step; [apply step_write|].
      eapply run_step; [apply step_handoff|].
      eapply run_step; [apply step_exit|].
      apply run_done.
    + repeat split.
  - eexists. split.
    + eapply run_step; [apply step_handoff|].
      eapply run_step; [apply step_write|].
      eapply run_step; [apply step_handoff|].
      eapply run_step; [apply step_write|].
      eapply run_step; [apply step_exit|].
      apply run_done.
    + repeat split.
  - intros final code Hrun Hex. clearbody line block.
    explore_run Hrun Hex 6%nat.
Qed.

(** C7 (amended). [Backtrace] hands its block to the channel whatever the
    threshold of the logger.  With depth 0 the block lists every captured
    frame, and at most 64 are captured.  With [0 < depth] below the number
    of frames the stack has above the caller of [Backtrace], it lists the
    first [depth] of them, but never more than the 64 captured: exactly
    [depth] lines when [depth] is below the number of captured frames.  The
    list ends with the blank entry in every case. *)
Theorem Backtrace_frames (l : Logger) (depth : Z) (stk : Stack) (w : World) :
  Backtrace l depth stk w
  = (Returned tt,
     mkWorld (now w) (trace w ++ [EvSend (backtrace_block depth stk)]))
  /\ (forall T, Backtrace (SetPrio l T) depth stk w = Backtrace l depth stk w)
  /\ captured stk = firstn 64 (tl stk)
  /\ (List.length (captured stk) <= 64)%nat
  /\ bt_entries 0 stk = (map frame_line (captured stk) ++ [nl])%list
  /\ ((0 < depth < Z.of_nat (List.length (tl stk)))%Z ->
      bt_entries depth stk
      = (map frame_line (firstn (Z.to_nat (Z.min depth 64)) (tl stk))
         ++ [nl])%list
      /\ Z.of_nat (List.length (bt_entries depth stk))
         = (Z.min depth 64 + 1)%Z)
  /\ ((0 < depth < Z.of_nat (List.length (captured stk)))%Z ->
      bt_entries depth stk
      = (map frame_line (firstn (Z.to_nat depth) (captured stk)) ++ [nl])%list
      /\ Z.of_nat (List.length (bt_entries depth stk)) = (depth + 1)%Z).
Proof.
  split; [reflexivity|]. split; [reflexivity|].
  split; [apply captured_eq|]. split; [apply captured_length|].
  split; [apply bt_entries_all|].
  split.
  - intros Hd. rewrite bt_entries_general, captured_eq.
    assert (E : (depth =? 0)%Z = false) by (apply Z.eqb_neq; lia).
    rewrite E, firstn_firstn.
    change 64%nat with (Z.to_nat 64). rewrite <- Z2Nat.inj_min.
    split; [reflexivity|].
    rewrite length_app, length_map, length_firstn. cbn [List.length]. lia.
  - intros Hd. rewrite (bt_entries_depth depth stk Hd).
    split; [reflexivity|].
    rewrite length_app, length_map, firstn_length_le by lia.
    cbn [List.length]. lia.
Qed.

(** C8. [NewLogger] calls [NewSyslog] with the caller's priority, prefix
    and flags when the upper-cased name is ["SYSLOG"], and otherwise calls
    [NewFilelog] with the name as the path, the caller's priority and flags
    and the empty prefix: the logger it then returns has prefix [""]. *)
Theorem NewLogger_dispatch (name : string) (p : Priority) (pfx : string)
    (f : Z) :
  (ToUpper name = "SYSLOG" -> NewLogger name p pfx f = NewSyslog p pfx f)
  /\ (ToUpper name <> "SYSLOG" ->
      NewLogger name p pfx f = NewFilelog name p "" f
      /\ forall l, NewLogger name p pfx f = inl l ->
                   Prio l = p /\ Flags l = f /\ Prefix l = "").
Proof.
  unfold NewLogger. split; intros Hn.
  - rewrite Hn. reflexivity.
  - apply String.eqb_neq in Hn. rewrite Hn.
    split; [reflexivity|].
    unfold NewFilelog, newLogger.
    destruct (OpenFile name _ _); intros l [= <-]. repeat split.
Qed.

(** C9 (amended). For [0 <= i] and a width from 19 above the least [int]
    up to 32, [itoa] returns the decimal digits of [i] with zeros in front
    up to [wid] characters (a longer number is not cut); for [i = 0] and
    [wid <= 1] that is ["0"]. *)
Theorem itoa_zero_padded (i wid : Z) :
  (0 <= i < 2 ^ 63)%Z -> (- 2 ^ 63 + 19 <= wid <= 32)%Z ->
  itoa i wid = Some (zero_pad wid (fmt_d i))
  /\ Z.of_nat (length (zero_pad wid (fmt_d i)))
     = Z.max wid (Z.of_nat (length (fmt_d i)))
  /\ (i = 0%Z -> (wid <= 1)%Z -> itoa i wid = Some "0").
Proof.
  intros Hi Hw.
  assert (Hu : uint i = i) by (unfold uint; apply Z.mod_small; lia).
  assert (Hd : (length (digs i) <= 19)%nat).
  { apply digs_length_bound.
    assert (2 ^ 63 < 10 ^ Z.of_nat 19)%Z by reflexivity. lia. }
  split; [|split].
  - rewrite itoa_render_exact by (rewrite Hu; lia).
    rewrite Hu. reflexivity.
  - unfold zero_pad. rewrite slength_app, zeros_length. lia.
  - intros -> Hw1. unfold itoa. change (uint 0) with 0%Z.
    change (0 =? 0)%Z with true.
    assert (E : (wid <=? 1)%Z = true) by (apply Z.leb_le; lia).
    rewrite E. reflexivity.
Qed.

(** C10. The prefix of a logger is stored and read back by [SetPrefix] and
    [Prefix], and nothing a logger hands off depends on it: two loggers that
    differ in their prefix only behave alike in [Output], in [Backtrace]
    and in every leveled method. *)
Theorem prefix_never_rendered (l1 l2 : Logger) :
  prio l1 = prio l2 -> flag l1 = flag l2 -> out l1 = out l2 ->
  (forall calldepth p s stk w,
      Output l1 calldepth p s stk w = Output l2 calldepth p s stk w)
  /\ (forall depth stk w, Backtrace l1 depth stk w = Backtrace l2 depth stk w)
  /\ (forall m format v stk w,
         call m l1 format v stk w = call m l2 format v stk w)
  /\ (forall pfx, Prefix (SetPrefix l1 pfx) = pfx
                  /\ prio (SetPrefix l1 pfx) = prio l1
                  /\ flag (SetPrefix l1 pfx) = flag l1
                  /\ out (SetPrefix l1 pfx) = out l1).
Proof.
  destruct l1 as [p1 x1 f1 o1], l2 as [p2 x2 f2 o2]. cbn [prio flag out].
  intros -> -> ->.
  repeat split.
  intros [] format v stk w; reflexivity.
Qed.

End Claims.

(** * The claims on concrete runs

    [demo_lib] gives the library a body; the logger writes to ["sink"], the
    clock shows 2009-01-23 01:23:23.123123 and the caller's stack is
    [demo_stack]. *)

(** The scenario of the documentation: threshold [LOG_INFO], flags
    [Ldate|Ltime].  [Debug] is suppressed, [Info] hands off one line. *)
Example scenario_threshold_info :
  Debug (demo_logger LOG_INFO LstdFlags) "x" [] demo_stack demo_world
  = (Returned tt, demo_world)
  /\ Info (demo_logger LOG_INFO LstdFlags) "hello" [] demo_stack demo_world
     = (Returned tt,
        mkWorld demo_time
          [EvSprintf "hello" [];
           EvSend ("<2>:2009/01/23 01:23:23 hello" ++ nl)]).
Proof. split; reflexivity. Qed.

(** With [Lshortfile] the methods of calldepth 2 name the caller's file. *)
Example scenario_shortfile :
  Error (demo_logger LOG_NONE (Z.lor Ltime Lshortfile)) "disk full" []
    demo_stack demo_world
  = (Returned tt,
     mkWorld demo_time
       [EvSprintf "disk full" [];
        EvSend ("<4>: 01:23:23 (c.go:12) disk full" ++ nl)]).
Proof. reflexivity. Qed.

(** C1, as stated, fails: [Info] on a format that yields the empty message
    passes the threshold, formats, and hands off no line. *)
Lemma Info_empty_message_no_line :
  (documented_priority MInfo >= prio (demo_logger LOG_NONE LstdFlags))%Z
  /\ call MInfo (demo_logger LOG_NONE LstdFlags) "" [] demo_stack demo_world
     = (Returned tt, mkWorld demo_time [EvSprintf "" []])
  /\ sends (trace (snd (call MInfo (demo_logger LOG_NONE LstdFlags) "" []
                          demo_stack demo_world))) = [].
Proof. repeat split. vm_compute. discriminate. Qed.

Lemma leveled_threshold_witness :
  (LOG_NONE <= prio (demo_logger LOG_WARNING LstdFlags) <= LOG_EMERG)%Z
  /\ call MDebug (demo_logger LOG_WARNING LstdFlags) "x" [] demo_stack demo_world
     = (Returned tt, demo_world)
  /\ call MCrit (demo_logger LOG_WARNING LstdFlags) "x" [] demo_stack demo_world
     = (Returned tt,
        mkWorld demo_time
          [EvSprintf "x" []; EvSend ("<5>:2009/01/23 01:23:23 x" ++ nl)]).
Proof.
  assert (HT : (LOG_NONE <= prio (demo_logger LOG_WARNING LstdFlags) <= LOG_EMERG)%Z)
    by (vm_compute; split; discriminate).
  split; [exact HT|]. split.
  - apply (leveled_threshold (go := demo_lib) MDebug
             (demo_logger LOG_WARNING LstdFlags) "x" [] demo_stack demo_world HT).
    vm_compute. reflexivity.
  - apply (leveled_threshold (go := demo_lib) MCrit
             (demo_logger LOG_WARNING LstdFlags) "x" [] demo_stack demo_world HT).
    vm_compute. discriminate.
Defined.

Lemma Output_returns_success_witness :
  snd (Output (demo_logger LOG_NONE LstdFlags) 0 LOG_INFO "" demo_stack demo_world)
  = demo_world
  /\ snd (Output (demo_logger LOG_NONE LstdFlags) 0 LOG_INFO "hello" demo_stack
            demo_world)
     = mkWorld demo_time [EvSend ("<2>:2009/01/23 01:23:23 hello" ++ nl)].
Proof.
  split.
  - apply (Output_returns_success (go := demo_lib)). reflexivity.
  - apply (Output_returns_success (go := demo_lib)
             (demo_logger LOG_NONE LstdFlags) 0 LOG_INFO "hello" demo_stack
             demo_world).
    discriminate.
Defined.

(** C3, as stated, fails: a message that ends in two newlines gives a line
    that ends in two newlines. *)
Lemma Output_keeps_two_newlines :
  snd (Output (demo_logger LOG_NONE LstdFlags) 0 LOG_INFO ("a" ++ nl ++ nl)
         demo_stack demo_world)
  = mkWorld demo_time [EvSend ("<2>:2009/01/23 01:23:23 a" ++ nl ++ nl)]
  /\ trailing_newlines ("<2>:2009/01/23 01:23:23 a" ++ nl ++ nl) = 2%nat
  /\ trailing_newlines ("<2>:2009/01/23 01:23:23 a" ++ nl ++ nl) <> 1%nat.
Proof. repeat split. vm_compute. discriminate. Qed.

Lemma Output_appends_one_newline_witness :
  "hello" <> ""
  /\ exists line,
      snd (Output (demo_logger LOG_NONE LstdFlags) 0 LOG_INFO "hello" demo_stack
             demo_world)
      = mkWorld demo_time [EvSend line]
      /\ ends_in_newline line = true
      /\ (ends_in_newline "hello" = false ->
          line = "<2>:2009/01/23 01:23:23 hello" ++ nl
          /\ trailing_newlines line = 1%nat)
      /\ (ends_in_newline "hello" = true ->
          line = "<2>:2009/01/23 01:23:23 hello"
          /\ (1 <= trailing_newlines line)%nat).
Proof.
  assert (Hs : "hello" <> "") by discriminate.
  split; [exact Hs|].
  exact (Output_appends_one_newline (go := demo_lib)
           (demo_logger LOG_NONE LstdFlags) 0 LOG_INFO "hello" demo_stack
           demo_world Hs).
Defined.

Lemma Output_syslog_or_tag_witness :
  snd (Output (demo_logger LOG_NONE (Z.lor LstdFlags Lsyslog)) 2 LOG_ERR "hello"
         demo_stack demo_world)
  = mkWorld demo_time [EvSend ("hello" ++ nl)]
  /\ exists hdr,
      formatHeader (demo_logger LOG_NONE LstdFlags) demo_time = Some hdr
      /\ snd (Output (demo_logger LOG_NONE LstdFlags) 2 LOG_ERR "hello"
                demo_stack demo_world)
         = mkWorld demo_time [EvSend ("<4>:" ++ hdr ++ "hello" ++ nl)].
Proof.
  assert (Hs : "hello" <> "") by discriminate.
  split.
  - apply (Output_syslog_or_tag (go := demo_lib)
             (demo_logger LOG_NONE (Z.lor LstdFlags Lsyslog)) 2 LOG_ERR "hello"
             demo_stack demo_world Hs).
    vm_compute. discriminate.
  - apply (Output_syslog_or_tag (go := demo_lib)
             (demo_logger LOG_NONE LstdFlags) 2 LOG_ERR "hello"
             demo_stack demo_world Hs).
    reflexivity.
Defined.

Lemma formatHeader_example_and_empty_witness :
  formatHeader (demo_logger LOG_NONE (Z.lor (Z.lor Ldate Ltime) Lmicroseconds))
    (mkTime 2009 1 23 1 23 23 123123000)
  = Some "2009/01/23 01:23:23.123123 "
  /\ formatHeader (demo_logger LOG_NONE (Z.lor Llongfile Lsyslog)) demo_time
     = Some "".
Proof.
  split.
  - apply (formatHeader_example_and_empty (go := demo_lib)
             (demo_logger LOG_NONE (Z.lor (Z.lor Ldate Ltime) Lmicroseconds))
             demo_time).
    reflexivity.
  - apply (formatHeader_example_and_empty (go := demo_lib)
             (demo_logger LOG_NONE (Z.lor Llongfile Lsyslog)) demo_time);
      reflexivity.
Defined.

(** [Fatal] on a format that yields the empty message hands off the
    backtrace only: [Output] skips the empty message. *)
Lemma Fatal_empty_message_no_line :
  Fatal (demo_logger LOG_NONE LstdFlags) "" [] demo_stack demo_world
  = (Exited 1,
     mkWorld demo_time
       [EvSprintf "" [];
        EvSend ("Backtrace:" ++ nl ++ "    *unknown*" ++ nl
                ++ "    /a/b/d.go:14 [main.main]" ++ nl ++ "    " ++ nl)])
  /\ List.length
       (sends (trace (snd (Fatal (demo_logger LOG_NONE LstdFlags) "" []
                             demo_stack demo_world)))) = 1%nat.
Proof. split; reflexivity. Qed.

Lemma Fatal_exit_races_backtrace_witness :
  trace demo_world = []
  /\ Sprintf (GoLib := demo_lib) "boom" [] <> ""
  /\ exists final,
      run (start (actions_of (Fatal (demo_logger LOG_NONE LstdFlags) "boom" []
                                 demo_stack demo_world))) final
      /\ exit_status final = Some 1%Z
      /\ written final = ["<6>:2009/01/23 01:23:23 boom" ++ nl]
      /\ worker final
         = Writing ("Backtrace:" ++ nl ++ "    *unknown*" ++ nl
                    ++ "    /a/b/d.go:14 [main.main]" ++ nl ++ "    " ++ nl).
Proof.
  assert (Ht : trace demo_world = []) by reflexivity.
  assert (Hs : Sprintf (GoLib := demo_lib) "boom" [] <> "")
    by (vm_compute; discriminate).
  split; [exact Ht|]. split; [exact Hs|].
  exact (proj1 (Fatal_exit_races_backtrace (go := demo_lib)
                  (demo_logger LOG_NONE LstdFlags) "boom" [] demo_stack
                  demo_world Ht Hs)).
Defined.

(** C7, as stated, fails: with 103 frames above the caller and a depth of
    70, below that number, the block has the 64 captured frames and the
    blank entry, not 70 frames. *)
Lemma Backtrace_depth_70_lists_64 :
  (0 < 70 < Z.of_nat (List.length (tl demo_tall_stack)))%Z
  /\ List.length (bt_entries 70 demo_tall_stack) = 65%nat
  /\ List.length (bt_entries 70 demo_tall_stack) <> 71%nat.
Proof. vm_compute. repeat split; discriminate. Qed.

Lemma Backtrace_frames_witness :
  (0 < 2 < Z.of_nat (List.length (captured demo_deep_stack)))%Z
  /\ bt_entries 2 demo_deep_stack
     = ["/a/b/d.go:13 [main.run]"; "*unknown*"; nl]
  /\ Z.of_nat (List.length (bt_entries 2 demo_deep_stack)) = 3%Z
  /\ (0 < 70 < Z.of_nat (List.length (tl demo_tall_stack)))%Z
  /\ Z.of_nat (List.length (bt_entries 70 demo_tall_stack)) = 65%Z.
Proof.
  assert (Hd : (0 < 2 < Z.of_nat (List.length (captured demo_deep_stack)))%Z)
    by (vm_compute; split; reflexivity).
  assert (Ht : (0 < 70 < Z.of_nat (List.length (tl demo_tall_stack)))%Z)
    by (vm_compute; split; reflexivity).
  split; [exact Hd|].
  destruct (proj2 (proj2 (proj2 (proj2 (proj2 (proj2
    (Backtrace_frames (go := demo_lib) (demo_logger LOG_EMERG LstdFlags) 2
       demo_deep_stack demo_world)))))) Hd) as [He Hl].
  split; [exact He|]. split; [exact Hl|]. split; [exact Ht|].
  exact (proj2 (proj1 (proj2 (proj2 (proj2 (proj2 (proj2
    (Backtrace_frames (go := demo_lib) (demo_logger LOG_EMERG LstdFlags) 70
       demo_tall_stack demo_world)))))) Ht)).
Defined.

Lemma NewLogger_dispatch_witness :
  NewLogger (go := demo_lib) "SysLog" LOG_INFO "pfx" LstdFlags
  = NewSyslog (go := demo_lib) LOG_INFO "pfx" LstdFlags
  /\ NewLogger (go := demo_lib) "/var/log/app.log" LOG_INFO "pfx" LstdFlags
     = NewFilelog (go := demo_lib) "/var/log/app.log" LOG_INFO "" LstdFlags
  /\ NewLogger (go := demo_lib) "/var/log/app.log" LOG_INFO "pfx" LstdFlags
     = inl (mkLogger (go := demo_lib) LOG_INFO "" LstdFlags "/var/log/app.log").
Proof.
  split.
  - apply (NewLogger_dispatch (go := demo_lib) "SysLog" LOG_INFO "pfx" LstdFlags).
    reflexivity.
  - split; [|reflexivity].
    apply (NewLogger_dispatch (go := demo_lib) "/var/log/app.log" LOG_INFO "pfx"
             LstdFlags).
    vm_compute. discriminate.
Defined.

(** C9, as stated, fails: a width above 32 runs off the 32-byte buffer and
    [itoa] panics instead of returning 33 zeros. *)
Lemma itoa_width_33_panics :
  itoa 0 33 = None /\ itoa 0 33 <> Some (zero_pad 33 (fmt_d 0)).
Proof. split; [reflexivity | discriminate]. Qed.

(** The other end of the widths: at the least [int] the decrement of the
    width wraps around and the loop runs off the buffer as well. *)
Example itoa_least_width_panics : itoa 5 (- 2 ^ 63) = None.
Proof. reflexivity. Qed.

Lemma itoa_zero_padded_witness :
  (0 <= 7 < 2 ^ 63)%Z /\ (- 2 ^ 63 + 19 <= 2 <= 32)%Z
  /\ itoa 7 2 = Some "07" /\ itoa 2009 4 = Some "2009"
  /\ itoa 12345 2 = Some "12345" /\ itoa 0 1 = Some "0".
Proof.
  split; [lia|]. split; [lia|]. split; [|split; [|split]].
  - apply (itoa_zero_padded 7 2); lia.
  - apply (itoa_zero_padded 2009 4); lia.
  - apply (itoa_zero_padded 12345 2); lia.
  - apply (itoa_zero_padded 0 1); lia.
Defined.

Lemma prefix_never_rendered_witness :
  Output (SetPrefix (demo_logger LOG_NONE LstdFlags) "other") 2 LOG_ERR "hello"
    demo_stack demo_world
  = Output (demo_logger LOG_NONE LstdFlags) 2 LOG_ERR "hello" demo_stack
      demo_world
  /\ Prefix (SetPrefix (demo_logger LOG_NONE LstdFlags) "other") = "other".
Proof.
  split.
  - apply (prefix_never_rendered (go := demo_lib)
             (SetPrefix (demo_logger LOG_NONE LstdFlags) "other")
             (demo_logger LOG_NONE LstdFlags)); reflexivity.
  - apply (prefix_never_rendered (go := demo_lib)
             (demo_logger LOG_NONE LstdFlags)
             (demo_logger LOG_NONE LstdFlags)); reflexivity.
Defined.

(** * Further properties of the package *)

(** ** [itoa] *)

Lemma itoa_render (i wid : Z) :
  (- 2 ^ 63 + 20 <= wid <= 32)%Z ->
  itoa i wid = Some (zero_pad wid (fmt_d (uint i))).
Proof.
  intros Hw. pose proof (uint_digits i).
  apply itoa_render_exact. lia.
Qed.

Lemma itoa_loop_overrun (bp : nat) :
  forall (u wid : Z) (buf : list ascii),
    (Z.of_nat bp < wid < 2 ^ 63)%Z -> itoa_loop bp u wid buf = None.
Proof.
  induction bp as [|bp IH]; intros u wid buf Hw; cbn [itoa_loop].
  - assert (E : (0 <? wid)%Z = true) by (apply Z.ltb_lt; lia).
    rewrite E, orb_true_r. reflexivity.
  - assert (E : (0 <? wid)%Z = true) by (apply Z.ltb_lt; lia).
    rewrite E, orb_true_r. rewrite int_wrap_id by lia. apply IH. lia.
Qed.

(** A width so near the least [int] that [wid--] reaches it while digits
    are left: the decrement wraps to the greatest [int] and the loop runs
    off the buffer. *)
Lemma itoa_loop_wraps (bp : nat) :
  forall (u wid : Z) (buf : list ascii),
    (bp <= 32)%nat -> (0 <= u)%Z -> (wid < 0)%Z ->
    (- 2 ^ 63 <= wid < - 2 ^ 63 + Z.of_nat (length (digs u)))%Z ->
    itoa_loop bp u wid buf = None.
Proof.
  induction bp as [|bp IH]; intros u wid buf Hbp Hu Hneg Hw.
  - assert (Hpos : (0 < u)%Z).
    { destruct (Z.eq_dec u 0) as [->|]; [|lia].
      rewrite digs_0 in Hw. cbn [length] in Hw. lia. }
    cbn [itoa_loop].
    assert (E : (0 <? u)%Z = true) by (apply Z.ltb_lt; lia).
    rewrite E. reflexivity.
  - assert (Hpos : (0 < u)%Z).
    { destruct (Z.eq_dec u 0) as [->|]; [|lia].
      rewrite digs_0 in Hw. cbn [length] in Hw. lia. }
    cbn [itoa_loop].
    assert (E : (0 <? u)%Z = true) by (apply Z.ltb_lt; lia).
    rewrite E. cbn [orb].
    destruct (Z.eq_dec wid (- 2 ^ 63)) as [->|Hne].
    + rewrite int_wrap_min. apply itoa_loop_overrun. lia.
    + rewrite int_wrap_id by lia.
      assert (Hlen : length (digs u) = S (length (digs (u / 10)))).
      { rewrite (digs_step u Hpos), slength_app. cbn [length]. lia. }
      apply IH; [lia | apply Z.div_pos; lia | lia | lia].
Qed.

Lemma itoa_loop_length (bp : nat) :
  forall (u wid : Z) (buf : list ascii),
    (bp <= 32)%nat ->
    (0 <= wid <= Z.of_nat bp)%Z -> (0 <= u < 10 ^ wid)%Z ->
    exists r, itoa_loop bp u wid buf = Some r
              /\ Z.of_nat (List.length r) = (wid + Z.of_nat (List.length buf))%Z.
Proof.
  induction bp as [|bp IH]; intros u wid buf Hbp Hw Hu.
  - assert (wid = 0%Z) by lia. subst wid.
    change (10 ^ 0)%Z with 1%Z in Hu. assert (u = 0%Z) by lia. subst u.
    exists buf. split; [reflexivity | lia].
  - cbn [itoa_loop].
    destruct ((0 <? u)%Z || (0 <? wid)%Z) eqn:Hc.
    + assert (Hpos : (0 < wid)%Z).
      { destruct (Z.eq_dec wid 0) as [->|]; [|lia].
        change (10 ^ 0)%Z with 1%Z in Hu. assert (u = 0%Z) by lia. subst u.
        discriminate Hc. }
      assert (Hq : (0 <= u / 10 < 10 ^ (wid - 1))%Z).
      { split; [apply Z.div_pos; lia|].
        apply Z.div_lt_upper_bound; [lia|].
        rewrite <- Z.pow_succ_r by lia.
        replace (Z.succ (wid - 1)) with wid by lia. lia. }
      rewrite int_wrap_id by lia.
      destruct (IH (u / 10)%Z (wid - 1)%Z (digit u :: buf)
                  ltac:(lia) ltac:(lia) Hq)
        as [r [Hr Hl]].
      exists r. split; [exact Hr|]. cbn [List.length] in Hl. lia.
    + apply orb_false_elim in Hc. destruct Hc as [Hc1 Hc2].
      apply Z.ltb_ge in Hc1, Hc2.
      exists buf. split; [reflexivity | lia].
Qed.

Lemma string_of_list_length (l : list ascii) :
  length (string_of_list_ascii l) = List.length l.
Proof. induction l; cbn; congruence. Qed.

Lemma itoa_length (i wid : Z) :
  (1 <= wid <= 32)%Z -> (0 <= i < 10 ^ wid)%Z -> (i < 2 ^ 63)%Z ->
  exists s, itoa i wid = Some s /\ Z.of_nat (length s) = wid.
Proof.
  intros Hw Hi Hi63.
  assert (Hu : uint i = i) by (unfold uint; apply Z.mod_small; lia).
  unfold itoa. rewrite Hu.
  destruct ((i =? 0)%Z && (wid <=? 1)%Z) eqn:Hc.
  - apply andb_prop in Hc. destruct Hc as [_ Hc]. apply Z.leb_le in Hc.
    exists "0". split; [reflexivity|]. cbn [length]. lia.
  - destruct (itoa_loop_length 32 i wid []) as [r [Hr Hl]];
      [lia | change (Z.of_nat 32) with 32%Z; lia | exact Hi |].
    rewrite Hr. eexists. split; [reflexivity|].
    rewrite string_of_list_length. cbn [List.length] in Hl. lia.
Qed.

Lemma fmt_d_length_pos (u : Z) : (1 <= length (fmt_d u))%nat.
Proof.
  destruct u as [|p|p].
  - cbn. lia.
  - change (fmt_d (Z.pos p)) with (NilZero.string_of_uint (Pos.to_uint p)).
    pose proof (DecimalPos.Unsigned.to_uint_nonnil p) as Hnn.
    destruct (Pos.to_uint p); [congruence | cbn; lia ..].
  - change (fmt_d (Z.neg p))
      with (String "-" (NilZero.string_of_uint (Pos.to_uint p))).
    cbn [length]. lia.
Qed.

(** X1. [itoa] converts its argument to [uint] first: for every [i] and
    every width that fits the buffer and lies at least 20 above the least
    [int] it renders [i mod 2^64], so a negative [i] of the [int] range
    comes out as the digits of [2^64 + i], without a sign. *)
Theorem itoa_renders_uint (i wid : Z) :
  (- 2 ^ 63 + 20 <= wid <= 32)%Z ->
  itoa i wid = Some (zero_pad wid (fmt_d (uint i)))
  /\ ((- 2 ^ 63 <= i < 0)%Z -> uint i = (2 ^ 64 + i)%Z)
  /\ ((0 <= i < 2 ^ 63)%Z -> uint i = i).
Proof.
  intros Hw. split; [apply itoa_render; exact Hw|]. unfold uint. split; intros Hi.
  - symmetry. apply (Z.mod_unique_pos i (2 ^ 64) (-1) (2 ^ 64 + i)); lia.
  - apply Z.mod_small. lia.
Qed.

(** X2. For a width of the [int] range, [itoa] panics in exactly two
    cases: the width exceeds the 32 bytes of the buffer, or it is so near
    the least [int] that [wid--] wraps around while digits of the number
    are left (fewer than its number of digits above the least [int]). *)
Theorem itoa_panics_iff (i wid : Z) :
  (- 2 ^ 63 <= wid < 2 ^ 63)%Z ->
  (itoa i wid = None
   <-> (32 < wid)%Z
       \/ (wid < - 2 ^ 63 + Z.of_nat (length (digs (uint i))))%Z).
Proof.
  intros Hr. pose proof (uint_range i) as Hu. pose proof (uint_digits i) as Hd.
  split.
  - intros Hn.
    destruct (Z_le_gt_dec wid 32) as [Hw|Hw]; [|left; lia].
    destruct (Z_lt_ge_dec wid (- 2 ^ 63 + Z.of_nat (length (digs (uint i)))))
      as [Hlo|Hlo]; [right; exact Hlo|].
    rewrite itoa_render_exact in Hn by lia. discriminate Hn.
  - intros [Hw|Hw]; unfold itoa.
    + assert (E : (wid <=? 1)%Z = false) by (apply Z.leb_gt; lia).
      rewrite E, andb_false_r.
      rewrite itoa_loop_overrun by (change (Z.of_nat 32) with 32%Z; lia).
      reflexivity.
    + assert (Hnz : (uint i =? 0)%Z = false).
      { apply Z.eqb_neq. intros E0. rewrite E0, digs_0 in Hw.
        cbn [length] in Hw. lia. }
      rewrite Hnz. cbn [andb].
      rewrite itoa_loop_wraps by lia. reflexivity.
Qed.

(** X3. A number that has at most [wid] digits comes out in exactly [wid]
    bytes, for [1 <= wid <= 32]. *)
Theorem itoa_fixed_width (i wid : Z) :
  (1 <= wid <= 32)%Z -> (0 <= i < 10 ^ wid)%Z -> (i < 2 ^ 63)%Z ->
  exists s, itoa i wid = Some s /\ Z.of_nat (length s) = wid.
Proof. intros Hw Hi Hi63. exact (itoa_length i wid Hw Hi Hi63). Qed.

(** X4. A width of one or less, down to 20 above the least [int], asks for
    no padding: [itoa] returns the plain decimal digits. *)
Theorem itoa_no_padding (i wid : Z) :
  (- 2 ^ 63 + 20 <= wid <= 1)%Z -> itoa i wid = Some (fmt_d (uint i)).
Proof.
  intros Hw. rewrite itoa_render by lia. unfold zero_pad.
  pose proof (fmt_d_length_pos (uint i)).
  replace (Z.to_nat (wid - Z.of_nat (length (fmt_d (uint i))))) with O by lia.
  reflexivity.
Qed.

(** ** [formatHeader] *)

Lemma land_lor_eqb (f a b : Z) :
  (Z.land f (Z.lor a b) =? 0)%Z
  = ((Z.land f a =? 0)%Z && (Z.land f b =? 0)%Z).
Proof.
  rewrite Z.land_lor_distr_r.
  destruct (Z.eqb_spec (Z.land f a) 0) as [Ea|Ea],
           (Z.eqb_spec (Z.land f b) 0) as [Eb|Eb]; cbn [andb];
    try (rewrite Ea); try (rewrite Eb);
    try (apply Z.eqb_neq; rewrite Z.lor_eq_0_iff; tauto).
  reflexivity.
Qed.

Lemma land_lor_other (f x y : Z) :
  Z.land x y = 0%Z -> Z.land (Z.lor f x) y = Z.land f y.
Proof.
  intros E. rewrite Z.land_lor_distr_l, E, Z.lor_0_r. reflexivity.
Qed.

Section HeaderFacts.
Context {go : GoLib}.

(** The three flag tests of [formatHeader], one bit each. *)
Lemma formatHeader_by_bits (l : Logger) (t : Time) :
  exists y m d hh mm ss us,
    itoa (year t) 4 = Some y /\ itoa (month t) 2 = Some m
    /\ itoa (day t) 2 = Some d /\ itoa (hour t) 2 = Some hh
    /\ itoa (minute t) 2 = Some mm /\ itoa (second t) 2 = Some ss
    /\ itoa (Z.quot (nanosecond t) 1000) 6 = Some us
    /\ formatHeader l t
       = Some
           (let bd := (Z.land (flag l) Ldate =? 0)%Z in
            let bt := (Z.land (flag l) Ltime =? 0)%Z in
            let bm := (Z.land (flag l) Lmicroseconds =? 0)%Z in
            if bd && bt && bm then ""
            else
              ((if bd then "" else y ++ "/" ++ m ++ "/" ++ d)
               ++ (if bt && bm then ""
                   else " " ++ hh ++ ":" ++ mm ++ ":" ++ ss
                        ++ (if bm then "" else "." ++ us)))
              ++ " ").
Proof.
  destruct (itoa_total (year t) 4) as [y Hy]; [lia|].
  destruct (itoa_total (month t) 2) as [m Hm]; [lia|].
  destruct (itoa_total (day t) 2) as [d Hd]; [lia|].
  destruct (itoa_total (hour t) 2) as [hh Hhh]; [lia|].
  destruct (itoa_total (minute t) 2) as [mm Hmm]; [lia|].
  destruct (itoa_total (second t) 2) as [ss Hss]; [lia|].
  destruct (itoa_total (Z.quot (nanosecond t) 1000) 6) as [us Hus]; [lia|].
  exists y, m, d, hh, mm, ss, us.
  repeat (split; [assumption|]).
  unfold formatHeader.
  rewrite Hy, Hm, Hd, Hhh, Hmm, Hss, Hus, !land_lor_eqb.
  destruct (Z.land (flag l) Ldate =? 0)%Z,
           (Z.land (flag l) Ltime =? 0)%Z,
           (Z.land (flag l) Lmicroseconds =? 0)%Z;
    cbn [andb negb]; rewrite ?sapp_assoc, ?sapp_nil_r; reflexivity.
Qed.

End HeaderFacts.

Section HeaderClaims.
Context {go : GoLib}.

(** X5. [formatHeader] returns a string for every logger and every time,
    also one whose fields are out of range or negative: the widths it
    passes to [itoa] fit the buffer. *)
Theorem formatHeader_never_panics (l : Logger) (t : Time) :
  exists h, formatHeader l t = Some h.
Proof.
  destruct (formatHeader_by_bits l t)
    as (y & m & d & hh & mm & ss & us & _ & _ & _ & _ & _ & _ & _ & Hh).
  eauto.
Qed.

(** X6. The header is empty exactly when none of [Ldate], [Ltime] and
    [Lmicroseconds] is set; otherwise it ends in a blank. *)
Theorem formatHeader_empty_iff (l : Logger) (t : Time) :
  (formatHeader l t = Some ""
   <-> Z.land (flag l) (Z.lor (Z.lor Ldate Ltime) Lmicroseconds) = 0%Z)
  /\ (Z.land (flag l) (Z.lor (Z.lor Ldate Ltime) Lmicroseconds) <> 0%Z ->
      exists body, formatHeader l t = Some (body ++ " ")).
Proof.
  destruct (formatHeader_by_bits l t)
    as (y & m & d & hh & mm & ss & us & _ & _ & _ & _ & _ & _ & _ & Hh).
  rewrite Hh. cbv zeta. rewrite <- !land_lor_eqb.
  destruct (Z.eqb_spec
              (Z.land (flag l) (Z.lor (Z.lor Ldate Ltime) Lmicroseconds)) 0)
    as [E|E].
  - split; [tauto | congruence].
  - split.
    + split; [|intros E'; contradiction]. intros [= E'].
      match type of E' with ?a ++ " " = "" => destruct a; discriminate E' end.
    + intros _. eauto.
Qed.

(** X7. [Lmicroseconds] assumes [Ltime]: once it is set, setting [Ltime] as
    well changes nothing in the header. *)
Theorem formatHeader_microseconds_imply_time (l : Logger) (t : Time) :
  Z.land (flag l) Lmicroseconds <> 0%Z ->
  formatHeader (SetFlags l (Z.lor (flag l) Ltime)) t = formatHeader l t.
Proof.
  intros Hm. apply Z.eqb_neq in Hm.
  destruct (formatHeader_by_bits l t)
    as (y & m & d & hh & mm & ss & us & Hy & Hmo & Hd & Hhh & Hmi & Hss & Hus & Hh).
  destruct (formatHeader_by_bits (SetFlags l (Z.lor (flag l) Ltime)) t)
    as (y' & m' & d' & hh' & mm' & ss' & us'
        & Hy' & Hmo' & Hd' & Hhh' & Hmi' & Hss' & Hus' & Hh').
  rewrite Hh, Hh'. cbn [SetFlags flag]. cbv zeta.
  rewrite (land_lor_other (flag l) Ltime Ldate eq_refl).
  rewrite (land_lor_other (flag l) Ltime Lmicroseconds eq_refl).
  rewrite Hm, !andb_false_r.
  replace y' with y by congruence. replace m' with m by congruence.
  replace d' with d by congruence. replace hh' with hh by congruence.
  replace mm' with mm by congruence. replace ss' with ss by congruence.
  replace us' with us by congruence.
  reflexivity.
Qed.

(** X8. For a time of the calendar the header has a fixed length that the
    flags alone decide: 10 bytes of date, 9 of time, 7 of microseconds and
    the closing blank. *)
Theorem formatHeader_length (l : Logger) (t : Time) :
  in_calendar t ->
  exists h, formatHeader l t = Some h /\ length h = header_length l.
Proof.
  intros (Hy & Hmo & Hd & Hh & Hmi & Hs & Hn).
  assert (Hq : (0 <= Z.quot (nanosecond t) 1000 < 10 ^ 6)%Z).
  { rewrite Z.quot_div_nonneg by lia. split; [apply Z.div_pos; lia|].
    apply Z.div_lt_upper_bound; lia. }
  destruct (itoa_length (year t) 4) as [y [Ey Ly]]; [lia..|].
  destruct (itoa_length (month t) 2) as [m [Em Lm]]; [lia..|].
  destruct (itoa_length (day t) 2) as [d [Ed Ld]]; [lia..|].
  destruct (itoa_length (hour t) 2) as [hh [Eh Lh]]; [lia..|].
  destruct (itoa_length (minute t) 2) as [mm [Emi Lmi]]; [lia..|].
  destruct (itoa_length (second t) 2) as [ss [Es Ls]]; [lia..|].
  destruct (itoa_length (Z.quot (nanosecond t) 1000) 6) as [us [Eu Lu]]; [lia..|].
  destruct (formatHeader_by_bits l t)
    as (y' & m' & d' & hh' & mm' & ss' & us'
        & Hy' & Hmo' & Hd' & Hhh' & Hmi' & Hss' & Hus' & Hhdr).
  rewrite Ey in Hy'. rewrite Em in Hmo'. rewrite Ed in Hd'.
  rewrite Eh in Hhh'. rewrite Emi in Hmi'. rewrite Es in Hss'.
  rewrite Eu in Hus'.
  injection Hy' as <-. injection Hmo' as <-. injection Hd' as <-.
  injection Hhh' as <-. injection Hmi' as <-. injection Hss' as <-.
  injection Hus' as <-.
  eexists. split; [exact Hhdr|].
  unfold header_length. rewrite !land_lor_eqb. cbv zeta.
  destruct (Z.land (flag l) Ldate =? 0)%Z,
           (Z.land (flag l) Ltime =? 0)%Z,
           (Z.land (flag l) Lmicroseconds =? 0)%Z;
    cbn [andb]; rewrite ?slength_app; cbn [length]; lia.
Qed.

(** X9. Without [Ldate] the header of a logger that prints the time begins
    with a blank: the separator between date and time is written even when
    there is no date. *)
Theorem formatHeader_time_only_leading_blank (l : Logger) (t : Time) :
  Z.land (flag l) Ldate = 0%Z ->
  Z.land (flag l) (Z.lor Ltime Lmicroseconds) <> 0%Z ->
  exists rest, formatHeader l t = Some (" " ++ rest).
Proof.
  intros Hd Ht. apply Z.eqb_eq in Hd. apply Z.eqb_neq in Ht.
  rewrite land_lor_eqb in Ht.
  destruct (formatHeader_by_bits l t)
    as (y & m & d & hh & mm & ss & us & _ & _ & _ & _ & _ & _ & _ & Hh).
  rewrite Hh. cbv zeta. rewrite Hd. cbn [andb]. rewrite Ht.
  cbn [append]. eauto.
Qed.

End HeaderClaims.

(** ** File names *)

Lemma get_app_r (a b : string) (n : nat) :
  get (length a + n) (a ++ b) = get n b.
Proof. induction a as [|c a IH]; cbn; auto. Qed.

Lemma substring_app_r (a b : string) (n k : nat) :
  substring (length a + n) k (a ++ b) = substring n k b.
Proof. induction a as [|c a IH]; cbn; auto. Qed.

Lemma substring_all (b : string) : substring 0 (length b) b = b.
Proof. induction b as [|c b IH]; cbn; congruence. Qed.

Lemma no_slash_get (s : string) :
  no_slash s = true ->
  forall n c, get n s = Some c -> Ascii.eqb c "/" = false.
Proof.
  induction s as [|a s IH]; intros Hs n c Hg; [discriminate Hg|].
  cbn [no_slash] in Hs. apply andb_prop in Hs. destruct Hs as [Ha Hs].
  destruct n as [|n]; cbn [get] in Hg.
  - injection Hg as <-. apply negb_true_iff in Ha. exact Ha.
  - exact (IH Hs n c Hg).
Qed.

Lemma short_loop_skips (file : string) (i : nat) (tail : string) :
  no_slash tail = true ->
  (forall j, get (S j) file = get j tail) ->
  short_loop file i = file.
Proof.
  intros Hs Hg. induction i as [|i IH]; [reflexivity|].
  cbn [short_loop]. rewrite Hg.
  destruct (get i tail) as [c|] eqn:Ec; [|exact IH].
  rewrite (no_slash_get tail Hs i c Ec). exact IH.
Qed.

Lemma short_loop_base (dir base : string) :
  dir <> "" -> no_slash base = true ->
  forall k,
    short_loop (dir ++ String "/" base) (length dir + k) = base.
Proof.
  intros Hd Hs k. induction k as [|k IH].
  - destruct (length dir) as [|n] eqn:El; [destruct dir; [congruence|discriminate El]|].
    rewrite Nat.add_0_r. cbn [short_loop]. rewrite <- El.
    rewrite <- (Nat.add_0_r (length dir)) at 1. rewrite get_app_r. cbn [get].
    change (Ascii.eqb "/" "/") with true. cbv iota.
    rewrite slength_app. cbn [length].
    replace (length dir + S (length base) - (length dir + 1))%nat
      with (length base) by lia.
    rewrite substring_app_r. cbn [substring]. apply substring_all.
  - rewrite Nat.add_succ_r. cbn [short_loop].
    rewrite <- Nat.add_succ_r, get_app_r. cbn [get].
    destruct (get k base) as [c|] eqn:Ec; [|exact IH].
    rewrite (no_slash_get base Hs k c Ec). exact IH.
Qed.

(** X10. With [Lshortfile] a path is cut to what follows its last slash:
    for a directory part that is not empty and a last element without a
    slash, [shortfile] returns the last element. *)
Theorem shortfile_basename (dir base : string) :
  dir <> "" -> no_slash base = true ->
  shortfile (dir ++ "/" ++ base) = base.
Proof.
  intros Hd Hs. unfold shortfile. cbn [append].
  rewrite slength_app. cbn [length].
  replace (length dir + S (length base) - 1)%nat
    with (length dir + length base)%nat by lia.
  apply short_loop_base; assumption.
Qed.

(** X11. The scan stops before the first byte: a name whose only slash, if
    any, is its first byte is kept whole, as is a name without a slash. *)
Theorem shortfile_keeps_leading_slash (c : ascii) (rest : string) :
  no_slash rest = true -> shortfile (String c rest) = String c rest.
Proof.
  intros Hs. unfold shortfile.
  apply (short_loop_skips (String c rest) _ rest Hs).
  intros j. reflexivity.
Qed.

(** ** Where a line says it comes from *)

Section LocationClaims.
Context {go : GoLib}.

(** X12. [Debug], [Error] and [Crit] put the place they were called from in
    front of the message when a file flag is set: the file and line of the
    frame that called the method, the file cut by [shortfile] when
    [Lshortfile] is set (it overrides [Llongfile]), and ["???:0"] when the
    runtime finds no such frame. *)
Theorem depth2_methods_report_caller (m : Method) (l : Logger)
    (format : string) (v : list Arg) (stk : Stack) (w : World) :
  documented_depth m = 2%Z ->
  Loggable l (documented_priority m) = true ->
  Sprintf format v <> "" ->
  Z.land (flag l) (Z.lor Lshortfile Llongfile) <> 0%Z ->
  call m l format v stk w
  = (Returned tt,
     mkWorld (now w)
       (trace w ++
        [EvSprintf format v;
         EvSend (tag_header l (documented_priority m) (now w)
                 ++ "(" ++ (if (Z.land (flag l) Lshortfile =? 0)%Z
                            then fst (call_site stk)
                            else shortfile (fst (call_site stk)))
                 ++ ":" ++ fmt_d (snd (call_site stk)) ++ ") "
                 ++ Sprintf format v
                 ++ (if ends_in_newline (Sprintf format v) then "" else nl))])%list).
Proof.
  intros Hd Hl Hs Hf. rewrite call_run, Hl. unfold logged.
  apply String.eqb_neq in Hs. rewrite Hs.
  apply Z.eqb_neq in Hf.
  unfold line_of, file_info. rewrite Hd, Hf. cbn [Z.gtb Z.compare negb].
  unfold Caller. change (Z.to_nat 2) with 2%nat. cbn [Z.ltb Z.compare nth_error].
  destruct stk as [|f rest]; cbn [nth_error call_site fst snd fr_file fr_line];
    destruct (Z.land (flag l) Lshortfile =? 0)%Z; cbn [negb];
    rewrite ?sapp_assoc; reflexivity.
Qed.

(** X13. With a calldepth of zero or less [Output] names no file, whatever
    the flags; so the lines of [Info] and [Warn] never carry a location. *)
Theorem no_location_at_depth_zero (l : Logger) (calldepth : Z) (p : Priority)
    (s : string) (stk : Stack) (w : World) (m : Method) (format : string)
    (v : list Arg) :
  (s <> "" -> (calldepth <= 0)%Z ->
   Output l calldepth p s stk w
   = (Returned None,
      mkWorld (now w)
        (trace w ++ [EvSend (tag_header l p (now w) ++ s
                             ++ (if ends_in_newline s then "" else nl))])%list))
  /\ (documented_depth m = 0%Z ->
      Loggable l (documented_priority m) = true ->
      Sprintf format v <> "" ->
      call m l format v stk w
      = (Returned tt,
         mkWorld (now w)
           (trace w ++
            [EvSprintf format v;
             EvSend (tag_header l (documented_priority m) (now w)
                     ++ Sprintf format v
                     ++ (if ends_in_newline (Sprintf format v)
                         then "" else nl))])%list)).
Proof.
  split.
  - intros Hs Hc. rewrite (Output_nonempty l calldepth p s stk w Hs).
    unfold line_of, file_info.
    assert (E : (calldepth >? 0)%Z = false)
      by (rewrite Z.gtb_ltb; apply Z.ltb_ge; exact Hc).
    rewrite E. reflexivity.
  - intros Hd Hl Hs. rewrite call_run, Hl. unfold logged.
    apply String.eqb_neq in Hs. rewrite Hs.
    unfold line_of, file_info. rewrite Hd. reflexivity.
Qed.

(** X14. A caller who ends the message with the newline gets the same line
    as one who leaves it to [Output]. *)
Theorem Output_newline_idempotent (l : Logger) (calldepth : Z) (p : Priority)
    (s : string) (stk : Stack) (w : World) :
  s <> "" -> ends_in_newline s = false ->
  Output l calldepth p (s ++ nl) stk w = Output l calldepth p s stk w.
Proof.
  intros Hs He.
  assert (Hs' : s ++ nl <> "") by (destruct s; [congruence | discriminate]).
  rewrite (Output_nonempty l calldepth p s stk w Hs).
  rewrite (Output_nonempty l calldepth p (s ++ nl) stk w Hs').
  unfold line_of. rewrite ends_in_newline_nl, He.
  rewrite !sapp_assoc, sapp_nil_r. reflexivity.
Qed.

End LocationClaims.

(** ** Thresholds *)

Section ThresholdClaims.
Context {go : GoLib}.

(** X15. What a logger passes is upward closed in the priority of the
    message and downward closed in the threshold: a logger that passes [p]
    passes every [q >= p], and still passes [p] after its threshold is
    lowered to any [T'] of the enumeration below it. *)
Theorem Loggable_monotone (l : Logger) (p q T' : Priority) :
  Loggable l p = true ->
  ((p <= q)%Z -> Loggable l q = true)
  /\ ((LOG_NONE <= T' <= prio l)%Z -> Loggable (SetPrio l T') p = true).
Proof.
  unfold Loggable, SetPrio. cbn [prio]. intros H.
  apply andb_prop in H. destruct H as [H1 H2].
  rewrite Z.geb_leb in H1, H2. apply Z.leb_le in H1, H2.
  split; intros Hq; apply andb_true_intro; split;
    rewrite Z.geb_leb; apply Z.leb_le; lia.
Qed.

(** X16. A threshold below [LOG_NONE] or above [LOG_CRIT] silences every
    leveled method: with [LOG_EMERG] as threshold none of [Debug], [Info],
    [Warn], [Error] and [Crit] formats or hands off anything; and below
    [LOG_NONE] nothing is loggable at all. *)
Theorem leveled_methods_silent (l : Logger) (m : Method) (format : string)
    (v : list Arg) (stk : Stack) (w : World) :
  ((prio l < LOG_NONE)%Z \/ (LOG_CRIT < prio l)%Z ->
   call m l format v stk w = (Returned tt, w))
  /\ ((prio l < LOG_NONE)%Z -> forall p, Loggable l p = false).
Proof.
  split.
  - intros Hp. rewrite call_run.
    assert (E : Loggable l (documented_priority m) = false).
    { unfold Loggable. apply andb_false_iff. rewrite !Z.geb_leb.
      destruct Hp as [Hp|Hp]; [left|right]; apply Z.leb_gt;
        [exact Hp |].
      unfold LOG_CRIT in Hp.
      destruct m; unfold documented_priority, LOG_DEBUG, LOG_INFO,
        LOG_WARNING, LOG_ERR, LOG_CRIT; lia. }
    rewrite E. reflexivity.
  - intros Hp p. unfold Loggable. apply andb_false_iff. left.
    rewrite Z.geb_leb. apply Z.leb_gt. exact Hp.
Qed.

(** X17. [Printf] does not consult the threshold: for every logger it
    formats the message and hands off its line at [LOG_INFO], without a
    location; on a logger that passes [LOG_INFO] it leaves the same world
    as [Info]. *)
Theorem Printf_ignores_threshold (l : Logger) (format : string)
    (v : list Arg) (stk : Stack) (w : World) :
  Printf l format v stk w
  = (Returned tt,
     mkWorld (now w)
       (trace w ++ EvSprintf format v ::
          (if String.eqb (Sprintf format v) "" then []
           else [EvSend (tag_header l LOG_INFO (now w) ++ Sprintf format v
                         ++ (if ends_in_newline (Sprintf format v)
                             then "" else nl))]))%list)
  /\ (Loggable l LOG_INFO = true ->
      Printf l format v stk w = Info l format v stk w).
Proof.
  assert (H : forall name line,
             (s <- sprintf format v ;;
              Output l 0 LOG_INFO s (self_frame name line :: stk) ;; ret tt) w
             = (Returned tt,
                mkWorld (now w)
                  (trace w ++ EvSprintf format v ::
                     (if String.eqb (Sprintf format v) "" then []
                      else [EvSend (tag_header l LOG_INFO (now w)
                                    ++ Sprintf format v
                                    ++ (if ends_in_newline (Sprintf format v)
                                        then "" else nl))]))%list)).
  { intros name line. unfold bind, sprintf.
    destruct (String.eqb_spec (Sprintf format v) "") as [He|He].
    - rewrite He, Output_empty. reflexivity.
    - rewrite (Output_nonempty _ _ _ _ _ _ He).
      cbn [now trace ret]. rewrite <- app_assoc. reflexivity. }
  split.
  - apply H.
  - intros Hl. unfold Printf, Info. rewrite Hl. rewrite !H. reflexivity.
Qed.

End ThresholdClaims.

(** ** Backtraces and [Panic] *)

Section BacktraceClaims.
Context {go : GoLib}.

(** X18. The depths the documentation leaves open: a negative depth lists
    no frame at all, a depth of at least the number of captured frames lists
    them all as depth 0 does, and no backtrace has more than 64 frame lines
    before its blank entry. *)
Theorem Backtrace_edge_depths (depth : Z) (stk : Stack) :
  ((depth < 0)%Z ->
   backtrace_block depth stk = "Backtrace:" ++ nl ++ "    " ++ nl)
  /\ ((Z.of_nat (List.length (captured stk)) <= depth)%Z ->
      bt_entries depth stk = bt_entries 0 stk)
  /\ (List.length (bt_entries depth stk) <= 65)%nat.
Proof.
  pose proof (captured_length stk) as Hc.
  split; [|split].
  - intros Hd. unfold backtrace_block. rewrite bt_entries_general.
    assert (E : (depth =? 0)%Z = false) by (apply Z.eqb_neq; lia).
    rewrite E. replace (Z.to_nat depth) with O by lia. reflexivity.
  - intros Hd. rewrite !bt_entries_general.
    change (0 =? 0)%Z with true. cbv iota.
    destruct (depth =? 0)%Z; [reflexivity|].
    rewrite !firstn_all2 by lia. reflexivity.
  - rewrite bt_entries_general, length_app, length_map, length_firstn.
    cbn [List.length]. lia.
Qed.

(** X19. The backtraces of [Fatal] and [Panic] begin at the function that
    called them: the frames of the package are skipped.  [Fatal] lists up
    to 64 frames of its caller's stack, [Panic] the first five. *)
Theorem backtrace_starts_at_caller (stk : Stack) :
  bt_entries 0 (self_frame "Fatal" 378 :: stk)
  = (map frame_line (firstn 64 stk) ++ [nl])%list
  /\ bt_entries 5 (self_frame "Panic" 387 :: stk)
     = (map frame_line (firstn 5 stk) ++ [nl])%list.
Proof.
  rewrite !bt_entries_general, !captured_eq. cbn [tl].
  change (0 =? 0)%Z with true. change (5 =? 0)%Z with false. cbv iota.
  change (Z.to_nat 5) with 5%nat.
  rewrite !firstn_firstn. split; reflexivity.
Qed.

(** X20. Whatever the threshold, [Panic] formats the message, hands off its
    line at [LOG_EMERG] with calldepth 2 when the message is not empty,
    hands off the block of [Backtrace(5)], and panics with the formatted
    message as its value. *)
Theorem Panic_sequence (l : Logger) (format : string) (v : list Arg)
    (stk : Stack) (w : World) :
  Panic l format v stk w
  = (Panicked (Sprintf format v), panic_world l format v stk w)
  /\ (forall T, Panic (SetPrio l T) format v stk w
                = (Panicked (Sprintf format v), panic_world l format v stk w)).
Proof.
  assert (H : forall l', flag l' = flag l ->
            Panic l' format v stk w
            = (Panicked (Sprintf format v), panic_world l format v stk w)).
  { intros l' Hf. unfold Panic, panic_world, bind, sprintf.
    destruct (String.eqb_spec (Sprintf format v) "") as [He|He].
    - rewrite He, Output_empty. unfold Backtrace, send, emit, panic.
      cbn [now trace]. rewrite <- app_assoc. reflexivity.
    - rewrite (Output_nonempty _ _ _ _ _ _ He).
      unfold Backtrace, send, emit, panic. cbn [now trace].
      rewrite <- !app_assoc. cbn [app].
      unfold line_of, tag_header, file_info, formatHeader. rewrite Hf.
      reflexivity. }
  split; [apply H; reflexivity|].
  intros T; apply H; reflexivity.
Qed.

End BacktraceClaims.

(** ** Constructors *)

Section ConstructorClaims.
Context {go : GoLib}.

(** X21. Every logger that [NewSyslog] returns has [Lsyslog] set, whatever
    flags the caller passed, and keeps the caller's priority and prefix; so
    [Output] on it hands off the file information, the message and the
    newline, with no priority tag and no header.  The same holds for
    [NewLogger] on a name that upper-cases to ["SYSLOG"]. *)
Theorem syslog_logger_has_no_header (name : string) (p : Priority)
    (pfx : string) (f : Z) (l : Logger) :
  (NewSyslog p pfx f = inl l
   \/ (ToUpper name = "SYSLOG" /\ NewLogger name p pfx f = inl l)) ->
  Z.land (Flags l) Lsyslog <> 0%Z /\ Prio l = p /\ Prefix l = pfx
  /\ forall calldepth q s stk w,
       s <> "" ->
       Output l calldepth q s stk w
       = (Returned None,
          mkWorld (now w)
            (trace w ++ [EvSend (file_info l calldepth stk ++ s
                                 ++ (if ends_in_newline s then "" else nl))])%list).
Proof.
  intros Hl.
  assert (Hs : NewSyslog p pfx f = inl l).
  { destruct Hl as [Hl|[Hn Hl]]; [exact Hl|].
    unfold NewLogger in Hl. rewrite Hn in Hl. exact Hl. }
  clear Hl. unfold NewSyslog, newLogger in Hs.
  destruct (syslog_New syslog_LOG_ERR "") as [wr|err]; [|discriminate Hs].
  injection Hs as <-. cbn [Flags Prio Prefix flag prio prefix].
  assert (Hb : Z.land (Z.lor f Lsyslog) Lsyslog <> 0%Z).
  { rewrite Z.land_lor_distr_l. intros E. apply Z.lor_eq_0_iff in E.
    destruct E as [_ E]. discriminate E. }
  repeat split; [exact Hb|].
  intros calldepth q s stk w Hne.
  rewrite (Output_nonempty _ _ _ _ _ _ Hne).
  unfold line_of, tag_header. cbn [flag].
  apply Z.eqb_neq in Hb. rewrite Hb. reflexivity.
Qed.

End ConstructorClaims.

(** ** Priority names *)

Lemma priority_cases (p : Priority) :
  (LOG_DEBUG <= p <= LOG_EMERG)%Z ->
  p = LOG_DEBUG \/ p = LOG_INFO \/ p = LOG_WARNING \/ p = LOG_ERR
  \/ p = LOG_CRIT \/ p = LOG_EMERG.
Proof.
  unfold LOG_DEBUG, LOG_INFO, LOG_WARNING, LOG_ERR, LOG_CRIT, LOG_EMERG. lia.
Qed.

(** X23. The two tables agree: every priority from [LOG_DEBUG] to
    [LOG_EMERG] has a name, and [PrioName] maps that name back to the
    priority; any other priority, [LOG_NONE] included, has the empty name. *)
Theorem PrioString_PrioName_roundtrip (p : Priority) :
  ((LOG_DEBUG <= p <= LOG_EMERG)%Z ->
   PrioString p <> "" /\ PrioName (PrioString p) = p)
  /\ ((p < LOG_DEBUG)%Z \/ (LOG_EMERG < p)%Z -> PrioString p = "").
Proof.
  split.
  - intros Hp.
    destruct (priority_cases p Hp) as [->|[->|[->|[->|[->| ->]]]]];
      split; solve [discriminate | reflexivity].
  - unfold LOG_DEBUG, LOG_EMERG. intros Hp.
    unfold PrioString, PrioString_table, map_lookup,
      LOG_DEBUG, LOG_INFO, LOG_WARNING, LOG_ERR, LOG_CRIT, LOG_EMERG.
    repeat match goal with
           | |- context [ (?k =? p)%Z ] =>
               destruct (Z.eqb_spec k p); [lia|]
           end.
    reflexivity.
Qed.

(** X24. Every name the table lists stands for a priority from
    [LOG_DEBUG] to [LOG_EMERG], and passing it through [PrioString] and
    back gives the same priority: the synonyms of a level collapse to its
    one printed name. *)
Theorem PrioName_listed (name : string) (p : Priority) :
  map_lookup String.eqb PrioName_table name = Some p ->
  PrioName name = p
  /\ (LOG_DEBUG <= p <= LOG_EMERG)%Z
  /\ PrioName (PrioString p) = p.
Proof.
  intros Hl. split; [unfold PrioName; rewrite Hl; reflexivity|].
  revert Hl. unfold PrioName_table, map_lookup.
  repeat match goal with
         | |- context [ String.eqb ?k name ] => destruct (String.eqb k name)
         end;
    intros [= <-]; split; solve [vm_compute; split; discriminate | reflexivity].
Qed.

Section NameClaims.
Context {go : GoLib}.

(** X25. A name the table does not list, for instance one in lower case,
    gives [LOG_NONE], and a logger with that threshold passes every leveled
    method: a misspelt level turns all logging on. *)
Theorem PrioName_unknown_logs_everything (name : string) (l : Logger)
    (m : Method) :
  map_lookup String.eqb PrioName_table name = None ->
  PrioName name = LOG_NONE
  /\ (prio l = PrioName name -> Loggable l (documented_priority m) = true).
Proof.
  intros Hl. unfold PrioName. rewrite Hl. split; [reflexivity|].
  intros Hp. unfold Loggable. rewrite Hp. destruct m; reflexivity.
Qed.

End NameClaims.

(** ** Reading back what [itoa] wrote *)

Lemma fmt_d_nonneg (u : Z) :
  (0 <= u)%Z -> fmt_d u = NilEmpty.string_of_uint (N.to_uint (Z.to_N u)).
Proof.
  intros Hu. destruct u as [|p|p]; [reflexivity| |lia].
  change (fmt_d (Z.pos p)) with (NilZero.string_of_uint (Pos.to_uint p)).
  change (N.to_uint (Z.to_N (Z.pos p))) with (Pos.to_uint p).
  pose proof (DecimalPos.Unsigned.to_uint_nonnil p) as Hnn.
  unfold NilZero.string_of_uint.
  destruct (Pos.to_uint p); [congruence | reflexivity ..].
Qed.

Lemma zeros_string_of_uint (n : nat) (d : Decimal.uint) :
  zeros n ++ NilEmpty.string_of_uint d
  = NilEmpty.string_of_uint (Nat.iter n Decimal.D0 d).
Proof.
  induction n as [|n IH]; [reflexivity|].
  change (zeros (S n) ++ NilEmpty.string_of_uint d)
    with (String "0" (zeros n ++ NilEmpty.string_of_uint d)).
  rewrite IH. reflexivity.
Qed.

(** X26. For a width that fits the buffer and lies at least 20 above the
    least [int], what [itoa] writes reads back as the number it was given,
    taken modulo [2^64]: the padding zeros do not change the value. *)
Theorem itoa_atoi_roundtrip (i wid : Z) :
  (- 2 ^ 63 + 20 <= wid <= 32)%Z ->
  exists s, itoa i wid = Some s /\ atoi s = Some (uint i).
Proof.
  intros Hw. pose proof (uint_range i) as [Hu _].
  exists (zero_pad wid (fmt_d (uint i))).
  split; [apply itoa_render; exact Hw|].
  unfold zero_pad, atoi.
  rewrite (fmt_d_nonneg (uint i) Hu) at 2.
  rewrite zeros_string_of_uint, NilEmpty.usu.
  rewrite <- DecimalN.Unsigned.of_uint_norm, unorm_iter_D0,
    DecimalN.Unsigned.of_uint_norm, DecimalN.Unsigned.of_to.
  rewrite Z2N.id by exact Hu. reflexivity.
Qed.

(** ** What a call leaves behind *)

Section TraceClaims.
Context {go : GoLib}.

(** X27. A leveled method always returns: it neither panics nor exits,
    whatever the logger, the message, the clock and the stack.  It leaves
    the clock and every earlier event as they were and hands off at most
    one line. *)
Theorem leveled_call_returns (m : Method) (l : Logger) (format : string)
    (v : list Arg) (stk : Stack) (w : World) :
  fst (call m l format v stk w) = Returned tt
  /\ now (snd (call m l format v stk w)) = now w
  /\ exists tr,
      trace (snd (call m l format v stk w)) = (trace w ++ tr)%list
      /\ (List.length (sends tr) <= 1)%nat.
Proof.
  rewrite call_run.
  destruct (Loggable l (documented_priority m)); cbn [fst snd].
  - split; [reflexivity|]. split; [reflexivity|].
    unfold logged. cbn [trace]. eexists. split; [reflexivity|].
    destruct (String.eqb (Sprintf format v) ""); cbn; lia.
  - split; [reflexivity|]. split; [reflexivity|].
    exists []. rewrite List.app_nil_r. split; [reflexivity | cbn; lia].
Qed.

(** X28. When the calldepth reaches beyond the stack the runtime reports no
    caller, and [Output] writes ["(???:0) "] in place of the location, with
    either file flag. *)
Theorem Output_unknown_caller (l : Logger) (calldepth : Z) (p : Priority)
    (s : string) (stk : Stack) (w : World) :
  s <> "" ->
  (Z.of_nat (List.length stk) < calldepth)%Z ->
  Z.land (flag l) (Z.lor Lshortfile Llongfile) <> 0%Z ->
  Output l calldepth p s stk w
  = (Returned None,
     mkWorld (now w)
       (trace w ++ [EvSend (tag_header l p (now w) ++ "(???:0) " ++ s
                            ++ (if ends_in_newline s then "" else nl))])%list).
Proof.
  intros Hs Hc Hf. rewrite (Output_nonempty l calldepth p s stk w Hs).
  unfold line_of, file_info.
  assert (E1 : (calldepth >? 0)%Z = true) by (apply Z.gtb_lt; lia).
  apply Z.eqb_neq in Hf. rewrite E1, Hf. cbn [negb].
  unfold Caller.
  assert (E2 : (calldepth <? 0)%Z = false) by (apply Z.ltb_ge; lia).
  rewrite E2.
  assert (E3 : nth_error (self_frame "Output" 286 :: stk) (Z.to_nat calldepth)
               = None).
  { apply nth_error_None. cbn [List.length]. lia. }
  rewrite E3.
  destruct (Z.land (flag l) Lshortfile =? 0)%Z; reflexivity.
Qed.

End TraceClaims.

(** ** The further properties on concrete runs *)

Lemma itoa_renders_uint_witness :
  (- 2 ^ 63 + 20 <= 2 <= 32)%Z /\ itoa (-1) 2 = Some "18446744073709551615"
  /\ uint (-1) = (2 ^ 64 + -1)%Z.
Proof.
  split; [lia|]. split.
  - apply (itoa_renders_uint (-1) 2). lia.
  - apply (itoa_renders_uint (-1) 2); lia.
Defined.

Lemma itoa_panics_iff_witness :
  (- 2 ^ 63 <= 40 < 2 ^ 63)%Z /\ itoa 5 40 = None
  /\ itoa 5 (- 2 ^ 63) = None.
Proof.
  assert (H40 : (- 2 ^ 63 <= 40 < 2 ^ 63)%Z) by lia.
  assert (Hmin : (- 2 ^ 63 <= - 2 ^ 63 < 2 ^ 63)%Z) by lia.
  split; [exact H40|]. split.
  - apply (proj2 (itoa_panics_iff 5 40 H40)). left. lia.
  - apply (proj2 (itoa_panics_iff 5 (- 2 ^ 63) Hmin)). right.
    vm_compute. reflexivity.
Defined.

Lemma itoa_fixed_width_witness :
  (1 <= 6 <= 32)%Z /\ (0 <= 42 < 10 ^ 6)%Z
  /\ exists s, itoa 42 6 = Some s /\ Z.of_nat (length s) = 6%Z.
Proof.
  split; [lia|]. split; [lia|].
  apply (itoa_fixed_width 42 6); lia.
Defined.

Lemma itoa_no_padding_witness :
  (- 2 ^ 63 + 20 <= -1 <= 1)%Z /\ itoa 2009 (-1) = Some "2009".
Proof.
  split; [lia|]. apply (itoa_no_padding 2009 (-1)). lia.
Defined.

Lemma formatHeader_empty_iff_witness :
  Z.land (flag (demo_logger LOG_NONE Ltime)) (Z.lor (Z.lor Ldate Ltime) Lmicroseconds)
  <> 0%Z
  /\ exists body,
      formatHeader (demo_logger LOG_NONE Ltime) demo_time = Some (body ++ " ").
Proof.
  assert (H : Z.land (flag (demo_logger LOG_NONE Ltime))
                (Z.lor (Z.lor Ldate Ltime) Lmicroseconds) <> 0%Z)
    by (vm_compute; discriminate).
  split; [exact H|].
  exact (proj2 (formatHeader_empty_iff (go := demo_lib)
                  (demo_logger LOG_NONE Ltime) demo_time) H).
Defined.

Lemma formatHeader_microseconds_imply_time_witness :
  Z.land (flag (demo_logger LOG_NONE Lmicroseconds)) Lmicroseconds <> 0%Z
  /\ formatHeader (SetFlags (demo_logger LOG_NONE Lmicroseconds)
                     (Z.lor Lmicroseconds Ltime)) demo_time
     = formatHeader (demo_logger LOG_NONE Lmicroseconds) demo_time
  /\ formatHeader (demo_logger LOG_NONE Lmicroseconds) demo_time
     = Some " 01:23:23.123123 ".
Proof.
  assert (H : Z.land (flag (demo_logger LOG_NONE Lmicroseconds)) Lmicroseconds
              <> 0%Z) by (vm_compute; discriminate).
  split; [exact H|]. split; [|reflexivity].
  exact (formatHeader_microseconds_imply_time (go := demo_lib)
           (demo_logger LOG_NONE Lmicroseconds) demo_time H).
Defined.

Lemma formatHeader_length_witness :
  in_calendar demo_time
  /\ exists h,
      formatHeader (demo_logger LOG_NONE LstdFlags) demo_time = Some h
      /\ length h = 20%nat.
Proof.
  assert (H : in_calendar demo_time) by (unfold in_calendar; cbn; lia).
  split; [exact H|].
  exact (formatHeader_length (go := demo_lib)
           (demo_logger LOG_NONE LstdFlags) demo_time H).
Defined.

Lemma formatHeader_time_only_leading_blank_witness :
  exists rest,
    formatHeader (demo_logger LOG_NONE Ltime) demo_time = Some (" " ++ rest).
Proof.
  apply (formatHeader_time_only_leading_blank (go := demo_lib)
           (demo_logger LOG_NONE Ltime) demo_time).
  - reflexivity.
  - vm_compute. discriminate.
Defined.

Lemma shortfile_basename_witness :
  shortfile ("/a/b" ++ "/" ++ "c.go") = "c.go".
Proof.
  apply (shortfile_basename "/a/b" "c.go"); [discriminate | reflexivity].
Defined.

Lemma shortfile_keeps_leading_slash_witness :
  shortfile "/vmlinuz" = "/vmlinuz".
Proof.
  apply (shortfile_keeps_leading_slash "/" "vmlinuz"). reflexivity.
Defined.

Lemma depth2_methods_report_caller_witness :
  call MError (demo_logger LOG_NONE (Z.lor Ltime Lshortfile)) "disk full" []
    demo_stack demo_world
  = (Returned tt,
     mkWorld demo_time
       [EvSprintf "disk full" [];
        EvSend ("<4>: 01:23:23 (c.go:12) disk full" ++ nl)]).
Proof.
  apply (depth2_methods_report_caller (go := demo_lib) MError
           (demo_logger LOG_NONE (Z.lor Ltime Lshortfile)) "disk full" []
           demo_stack demo_world).
  - reflexivity.
  - reflexivity.
  - vm_compute. discriminate.
  - vm_compute. discriminate.
Defined.

Lemma no_location_at_depth_zero_witness :
  call MWarn (demo_logger LOG_NONE (Z.lor Ltime Llongfile)) "low disk" []
    demo_stack demo_world
  = (Returned tt,
     mkWorld demo_time
       [EvSprintf "low disk" []; EvSend ("<3>: 01:23:23 low disk" ++ nl)])
  /\ Output (demo_logger LOG_NONE (Z.lor Ltime Llongfile)) (-1) LOG_ERR "x"
       demo_stack demo_world
     = (Returned None, mkWorld demo_time [EvSend ("<4>: 01:23:23 x" ++ nl)]).
Proof.
  split.
  - apply (no_location_at_depth_zero (go := demo_lib)
             (demo_logger LOG_NONE (Z.lor Ltime Llongfile)) 0 LOG_ERR "x"
             demo_stack demo_world MWarn "low disk" []).
    + reflexivity.
    + reflexivity.
    + vm_compute. discriminate.
  - apply (no_location_at_depth_zero (go := demo_lib)
             (demo_logger LOG_NONE (Z.lor Ltime Llongfile)) (-1) LOG_ERR "x"
             demo_stack demo_world MWarn "low disk" []).
    + discriminate.
    + vm_compute. discriminate.
Defined.

Lemma Output_newline_idempotent_witness :
  Output (demo_logger LOG_NONE LstdFlags) 0 LOG_INFO ("hello" ++ nl) demo_stack
    demo_world
  = Output (demo_logger LOG_NONE LstdFlags) 0 LOG_INFO "hello" demo_stack
      demo_world.
Proof.
  apply (Output_newline_idempotent (go := demo_lib)
           (demo_logger LOG_NONE LstdFlags) 0 LOG_INFO "hello" demo_stack
           demo_world).
  - discriminate.
  - reflexivity.
Defined.

Lemma Loggable_monotone_witness :
  Loggable (demo_logger LOG_WARNING LstdFlags) LOG_ERR = true
  /\ Loggable (demo_logger LOG_WARNING LstdFlags) LOG_CRIT = true
  /\ Loggable (SetPrio (demo_logger LOG_WARNING LstdFlags) LOG_DEBUG) LOG_ERR
     = true.
Proof.
  assert (H : Loggable (demo_logger LOG_WARNING LstdFlags) LOG_ERR = true)
    by reflexivity.
  split; [exact H|]. split.
  - apply (proj1 (Loggable_monotone (go := demo_lib)
             (demo_logger LOG_WARNING LstdFlags) LOG_ERR LOG_CRIT LOG_DEBUG H)).
    unfold LOG_ERR, LOG_CRIT. lia.
  - apply (proj2 (Loggable_monotone (go := demo_lib)
             (demo_logger LOG_WARNING LstdFlags) LOG_ERR LOG_CRIT LOG_DEBUG H)).
    vm_compute. split; discriminate.
Defined.

Lemma leveled_methods_silent_witness :
  call MCrit (demo_logger LOG_EMERG LstdFlags) "x" [] demo_stack demo_world
  = (Returned tt, demo_world)
  /\ Loggable (demo_logger (-1) LstdFlags) LOG_EMERG = false.
Proof.
  split.
  - apply (leveled_methods_silent (go := demo_lib)
             (demo_logger LOG_EMERG LstdFlags) MCrit "x" [] demo_stack
             demo_world).
    right. vm_compute. reflexivity.
  - apply (leveled_methods_silent (go := demo_lib)
             (demo_logger (-1) LstdFlags) MCrit "x" [] demo_stack demo_world).
    vm_compute. reflexivity.
Defined.

Lemma Printf_ignores_threshold_witness :
  Loggable (demo_logger LOG_NONE LstdFlags) LOG_INFO = true
  /\ Printf (demo_logger LOG_NONE LstdFlags) "x" [] demo_stack demo_world
     = Info (demo_logger LOG_NONE LstdFlags) "x" [] demo_stack demo_world.
Proof.
  split; [reflexivity|].
  apply (Printf_ignores_threshold (go := demo_lib)
           (demo_logger LOG_NONE LstdFlags) "x" [] demo_stack demo_world).
  reflexivity.
Defined.

Lemma Backtrace_edge_depths_witness :
  backtrace_block (-3) demo_deep_stack = "Backtrace:" ++ nl ++ "    " ++ nl
  /\ bt_entries 7 demo_deep_stack = bt_entries 0 demo_deep_stack.
Proof.
  split.
  - apply (Backtrace_edge_depths (-3) demo_deep_stack). lia.
  - apply (Backtrace_edge_depths 7 demo_deep_stack).
    vm_compute. discriminate.
Defined.

Lemma syslog_logger_has_no_header_witness :
  NewLogger (go := demo_lib) "syslog" LOG_INFO "pfx" LstdFlags
  = inl (mkLogger (go := demo_lib) LOG_INFO "pfx" (Z.lor LstdFlags Lsyslog)
           "syslog")
  /\ Output (mkLogger (go := demo_lib) LOG_INFO "pfx" (Z.lor LstdFlags Lsyslog)
               "syslog") 0 LOG_ERR "hello" demo_stack demo_world
     = (Returned None, mkWorld demo_time [EvSend ("hello" ++ nl)]).
Proof.
  split; [reflexivity|].
  apply (syslog_logger_has_no_header (go := demo_lib) "syslog" LOG_INFO "pfx"
           LstdFlags
           (mkLogger (go := demo_lib) LOG_INFO "pfx" (Z.lor LstdFlags Lsyslog)
              "syslog")).
  - right. split; reflexivity.
  - discriminate.
Defined.

Lemma PrioString_PrioName_roundtrip_witness :
  (LOG_DEBUG <= LOG_WARNING <= LOG_EMERG)%Z
  /\ PrioString LOG_WARNING = "WARNING" /\ PrioName "WARNING" = LOG_WARNING
  /\ PrioName (PrioString LOG_WARNING) = LOG_WARNING
  /\ PrioString LOG_NONE = "".
Proof.
  assert (H : (LOG_DEBUG <= LOG_WARNING <= LOG_EMERG)%Z)
    by (vm_compute; split; discriminate).
  split; [exact H|]. split; [reflexivity|]. split; [reflexivity|]. split.
  - apply (PrioString_PrioName_roundtrip LOG_WARNING). exact H.
  - apply (PrioString_PrioName_roundtrip LOG_NONE). left. reflexivity.
Defined.

Lemma PrioName_listed_witness :
  PrioName "LOG_WARN" = LOG_WARNING
  /\ PrioString (PrioName "LOG_WARN") = "WARNING".
Proof.
  split; [|reflexivity].
  apply (PrioName_listed "LOG_WARN" LOG_WARNING). reflexivity.
Defined.

Lemma PrioName_unknown_logs_everything_witness :
  PrioName "debug" = LOG_NONE
  /\ Loggable (demo_logger (PrioName "debug") LstdFlags)
       (documented_priority MDebug) = true.
Proof.
  split.
  - apply (PrioName_unknown_logs_everything (go := demo_lib) "debug"
             (demo_logger (PrioName "debug") LstdFlags) MDebug).
    reflexivity.
  - apply (PrioName_unknown_logs_everything (go := demo_lib) "debug"
             (demo_logger (PrioName "debug") LstdFlags) MDebug);
      reflexivity.
Defined.

Lemma itoa_atoi_roundtrip_witness :
  (- 2 ^ 63 + 20 <= 6 <= 32)%Z /\ itoa 123123 6 = Some "123123" /\ atoi "000042" = Some 42%Z
  /\ exists s, itoa 42 6 = Some s /\ atoi s = Some (uint 42).
Proof.
  split; [lia|]. split; [reflexivity|]. split; [reflexivity|].
  apply (itoa_atoi_roundtrip 42 6). lia.
Defined.

Lemma Output_unknown_caller_witness :
  Output (demo_logger LOG_NONE (Z.lor Ltime Lshortfile)) 9 LOG_ERR "x"
    demo_stack demo_world
  = (Returned None,
     mkWorld demo_time [EvSend ("<4>: 01:23:23 (???:0) x" ++ nl)]).
Proof.
  apply (Output_unknown_caller (go := demo_lib)
           (demo_logger LOG_NONE (Z.lor Ltime Lshortfile)) 9 LOG_ERR "x"
           demo_stack demo_world).
  - discriminate.
  - cbn. lia.
  - vm_compute. discriminate.
Defined.
